(** * wagtailtrans: translation registry and tree synchronisation

    A shallow embedding of [src/wagtailtrans/models.py] and
    [src/wagtailtrans/signals.py].

    Conventions of the embedding.
    - The database is an explicit value [DB]. A method that only reads is
      a function of the [DB]; a method that writes is a computation in the
      state-and-exception monad [M]: it returns its result together with
      the database it leaves behind, also when it raises (the code opens
      no transaction).
    - A Python exception is an [Err _] result; the exception classes that
      the code distinguishes are the constructors of [Error].
    - A queryset is the list of its rows in the order the manager yields
      them: [TranslatablePage.objects] inherits the page manager of the
      host, which orders by [path]; [Language] has [ordering = position].
    - In a method of [TranslatablePageMixin], [self] is an instance of a
      page class that has the mixin: [self.language] is the mixin's
      property (it goes through [TranslatablePageItem]). A row of
      [TranslatablePage.objects] is a [TranslatablePage], which does not
      have the mixin: its [language] is the column, and so is the keyword
      [language=...] of a filter; its [move] is the host's [Page.move].
    - The host framework's tree primitives ([Page.move], [Page.copy],
      [add_child], [get_parent], [get_children], [get_site]) act on
      materialised paths, here lists of steps; the host's validation on
      save (unique slugs among siblings) is left out, and so are the moves
      the host refuses (see [placement]).
    - [moves] is a trace: every call of [TranslatablePageMixin.move] is
      appended to it with its arguments. *)

From Stdlib Require Import ZArith List String Bool Lia.
Import ListNotations.
Open Scope Z_scope.

(** ** Exceptions and results *)

Inductive Model := MTranslatablePage | MTranslatablePageItem.

Inductive Error :=
| TranslationAlreadyExists               (* Exception("Translation already exists") *)
| DoesNotExist (m : Model)               (* <m>.DoesNotExist *)
| MultipleObjectsReturned (m : Model)    (* <m>.MultipleObjectsReturned *)
| AttributeError                         (* attribute access on None or a missing method *)
| IntegrityError                         (* NOT NULL column saved with None *)
| ProtectedError                         (* on_delete=PROTECT *)
| TypeError                              (* a keyword argument the callee does not take *)
| Http404.

Inductive Result (A : Type) :=
| Ok (a : A)
| Err (e : Error).
Arguments Ok {A} a.
Arguments Err {A} e.

Definition bind {A B} (r : Result A) (k : A -> Result B) : Result B :=
  match r with
  | Ok a => k a
  | Err e => Err e
  end.

Notation "'let?' x ':=' c1 'in' c2" := (bind c1 (fun x => c2))
  (at level 61, x pattern, c1 at next level, right associativity).

(** ** Rows *)

Module Language.
Record t := mk {
  pk : Z;
  code : string;
  is_default : bool;
  position : Z;
  live : bool
}.
End Language.

Module Page.
(** A row of the host's [Page] table, joined with its [TranslatablePage]
    row when it has one (multi-table inheritance). *)
Record t := mk {
  pk : Z;
  path : list nat;
  translatable : bool;   (* the page has a TranslatablePage row *)
  title : string;
  slug : string;
  live : bool;
  content : string;
  canonical_page_id : option Z;
  language_id : Z
}.
End Page.

Module Item.
(** A row of [TranslatablePageItem]. *)
Record t := mk {
  page : option Z;
  canonical_page : option Z;
  language : Z
}.
End Item.

Module Site.
Record t := mk {
  pk : Z;
  root_page : Z
}.
End Site.

Module SiteLanguages.
Record t := mk {
  site : Z;
  default_language : option Z;
  other_languages : list Z
}.
End SiteLanguages.

(** A call of the host's [Page.move(target, pos)], with the
    [suppress_sync] flag of the wrapping [TranslatablePageMixin.move]. *)
Module MoveCall.
Record t := mk {
  page : Z;
  target : Z;
  pos : option string;
  suppress_sync : bool
}.
End MoveCall.

Record Settings := mkSettings {
  SYNC_TREE : bool;
  LANGUAGES_PER_SITE : bool
}.

Record DB := mkDB {
  languages : list Language.t;
  pages : list Page.t;
  items : list Item.t;
  sites : list Site.t;
  site_languages : list SiteLanguages.t;
  moves : list MoveCall.t
}.

(** ** Querysets *)

Definition opt_eqb (a b : option Z) : bool :=
  match a, b with
  | Some x, Some y => x =? y
  | None, None => true
  | _, _ => false
  end.

(** [field=value] against a nullable column: a [None] value matches the
    rows whose column is null. *)
Definition fk_is (col : option Z) (v : Z) : bool := opt_eqb col (Some v).

Fixpoint insert_by {A} (le : A -> A -> bool) (x : A) (l : list A) : list A :=
  match l with
  | [] => [x]
  | y :: l' => if le x y then x :: l else y :: insert_by le x l'
  end.

(** Stable sort: rows with equal keys keep their table order. *)
Definition order_by {A} (le : A -> A -> bool) (l : list A) : list A :=
  fold_right (fun x acc =>
    insert_by (fun a b => le a b) x acc) [] l.

Fixpoint path_leb (p q : list nat) : bool :=
  match p, q with
  | [], _ => true
  | _ :: _, [] => false
  | a :: p', b :: q' =>
      if Nat.ltb a b then true
      else if Nat.ltb b a then false
      else path_leb p' q'
  end.

Fixpoint startswith (p prefix : list nat) : bool :=
  match prefix, p with
  | [], _ => true
  | _ :: _, [] => false
  | b :: prefix', a :: p' => Nat.eqb a b && startswith p' prefix'
  end.

Definition path_eqb (p q : list nat) : bool :=
  startswith p q && startswith q p.

(** The host's page manager orders by [path]; [TranslatablePage.objects]
    is that manager over the pages that have a [TranslatablePage] row. *)
Definition Page_objects (db : DB) : list Page.t :=
  order_by (fun a b => path_leb (Page.path a) (Page.path b)) (pages db).

Definition TranslatablePage_objects (db : DB) : list Page.t :=
  filter Page.translatable (Page_objects db).

(** [Language.objects]: [Meta.ordering = position]. *)
Definition Language_objects (db : DB) : list Language.t :=
  order_by (fun a b => Language.position a <=? Language.position b) (languages db).

Definition TranslatablePageItem_objects (db : DB) : list Item.t := items db.

Definition first {A} (q : list A) : option A := hd_error q.

Definition exists_ {A} (q : list A) : bool :=
  match q with [] => false | _ :: _ => true end.

Definition get {A} (m : Model) (q : list A) : Result A :=
  match q with
  | [] => Err (DoesNotExist m)
  | [x] => Ok x
  | _ :: _ :: _ => Err (MultipleObjectsReturned m)
  end.

Definition Language_by_pk (db : DB) (k : Z) : option Language.t :=
  first (filter (fun l => Language.pk l =? k) (Language_objects db)).

Definition Page_by_pk (db : DB) (k : Z) : option Page.t :=
  first (filter (fun p => Page.pk p =? k) (Page_objects db)).

(** The join [language__live=True] of a page row. *)
Definition language__live (db : DB) (p : Page.t) : bool :=
  match Language_by_pk db (Page.language_id p) with
  | Some l => Language.live l
  | None => false
  end.

(** ** TranslatablePage.get_translations (models.py 339-358) *)

(** Python's [a or b] on an optional integer: [None] and [0] are falsy. *)
Definition or_pk (a : option Z) (b : Z) : Z :=
  match a with
  | Some c => if c =? 0 then b else c
  | None => b
  end.

Definition get_translations (db : DB) (self : Page.t)
    (only_live include_self : bool) : list Page.t :=
  let canonical_page_id := or_pk (Page.canonical_page_id self) (Page.pk self) in
  let translations :=
    filter (fun p => fk_is (Page.canonical_page_id p) canonical_page_id
                     || (Page.pk p =? canonical_page_id))
           (TranslatablePage_objects db) in
  let translations :=
    if negb include_self
    then filter (fun p => negb (Page.pk p =? Page.pk self)) translations
    else translations in
  let translations :=
    if only_live
    then filter (fun p => Page.live p && language__live db p) translations
    else translations in
  translations.

(** ** Computations that write *)

Definition M (A : Type) : Type := DB -> Result A * DB.

Definition ret {A} (a : A) : M A := fun db => (Ok a, db).

Definition raise {A} (e : Error) : M A := fun db => (Err e, db).

Definition bindM {A B} (c : M A) (k : A -> M B) : M B :=
  fun db =>
    match c db with
    | (Ok a, db1) => k a db1
    | (Err e, db1) => (Err e, db1)
    end.

Notation "'let*' x ':=' c1 'in' c2" := (bindM c1 (fun x => c2))
  (at level 61, x pattern, c1 at next level, right associativity).

(** Read the database. *)
Definition query {A} (f : DB -> A) : M A := fun db => (Ok (f db), db).

(** Read the database with a query that can raise. *)
Definition query_or_raise {A} (f : DB -> Result A) : M A := fun db => (f db, db).

Definition modify (f : DB -> DB) : M unit := fun db => (Ok tt, f db).

Fixpoint for_each {A} (body : A -> M unit) (l : list A) : M unit :=
  match l with
  | [] => ret tt
  | x :: l' => let* _ := body x in for_each body l'
  end.

(** ** Host tree primitives *)

Definition get_parent (db : DB) (self : Page.t) : option Page.t :=
  match Page.path self with
  | [] => None
  | _ :: _ =>
      first (filter (fun p => path_eqb (Page.path p) (removelast (Page.path self)))
                    (Page_objects db))
  end.

Definition get_children (db : DB) (self : Page.t) : list Page.t :=
  filter (fun p => path_eqb (removelast (Page.path p)) (Page.path self)
                   && negb (path_eqb (Page.path p) []))
         (Page_objects db).

Definition root_page (db : DB) (s : Site.t) : option Page.t :=
  Page_by_pk db (Site.root_page s).

(** The path of the root page of a site. *)
Definition site_root_path (db : DB) (s : Site.t) : list nat :=
  match root_page db s with
  | Some r => Page.path r
  | None => []
  end.

(** [Page.get_site]: the host tries the site roots from the most specific
    one (descending order of root path) and takes the first one the page
    lives under. *)
Definition get_site (db : DB) (self : Page.t) : option Site.t :=
  first (filter (fun s => match root_page db s with
                          | Some r => startswith (Page.path self) (Page.path r)
                          | None => false
                          end)
                (order_by (fun a b => path_leb (site_root_path db b)
                                               (site_root_path db a))
                          (sites db))).

Definition next_pk (db : DB) : Z :=
  1 + fold_right (fun p m => Z.max (Page.pk p) m) 0 (pages db).

Definition next_step (db : DB) (parent_path : list nat) : nat :=
  S (fold_right (fun p m =>
       if path_eqb (removelast (Page.path p)) parent_path
       then Nat.max (last (Page.path p) 0%nat) m else m) 0%nat (pages db)).

Definition save_page (p : Page.t) (db : DB) : DB :=
  mkDB (languages db) (pages db ++ [p]) (items db) (sites db)
       (site_languages db) (moves db).

(** [update_attrs] of [create_translation]: title, slug and live. *)
Record UpdateAttrs := mkAttrs {
  ua_title : string;
  ua_slug : string;
  ua_live : bool
}.

(** What [create_translation] can hold in its variable [parent]: nothing,
    a page, or (from [get_translation_parent]) a [TranslatablePageItem]. *)
Inductive ParentRef :=
| PNone
| PPage (p : Page.t)
| PItem (i : Item.t).

(** [Page.copy(update_attrs=..., to=...)], not recursive: the copy has the
    fields of [self] with [update_attrs] set over them, and is added as the
    last child of [to], or as a sibling of [self] without [to]. *)
Definition copy (self : Page.t) (update_attrs : UpdateAttrs) (to : ParentRef)
    : M Page.t :=
  fun db =>
    let page_copy parent_path :=
      Page.mk (next_pk db) (parent_path ++ [next_step db parent_path])
              (Page.translatable self)
              (ua_title update_attrs) (ua_slug update_attrs) (ua_live update_attrs)
              (Page.content self) (Page.canonical_page_id self)
              (Page.language_id self) in
    match to with
    | PNone =>
        let c := page_copy (removelast (Page.path self)) in (Ok c, save_page c db)
    | PPage p =>
        let c := page_copy (Page.path p) in (Ok c, save_page c db)
    | PItem _ => (Err AttributeError, db)
    end.

(** [Language.objects.default()] (managers.py is not part of the sources).
    Modelled from the spec: in global mode the default language is the
    single [Language] with [is_default = true]. *)
Definition Language_default (db : DB) : option Language.t :=
  first (filter Language.is_default (Language_objects db)).

(** [_language_default] (models.py 132-139). *)
Definition _language_default (db : DB) : option Z :=
  match Language_default db with
  | None => None
  | Some default_language => Some (Language.pk default_language)
  end.

(** A new instance of [self]'s model class built from [update_attrs] alone
    (every other field takes its default), then
    [parent.add_child(instance=new_page)]. *)
Definition add_child_new (self : Page.t) (update_attrs : UpdateAttrs)
    (parent : ParentRef) : M Page.t :=
  fun db =>
    match parent with
    | PPage p =>
        match _language_default db with
        | Some lang =>
            let c := Page.mk (next_pk db) (Page.path p ++ [next_step db (Page.path p)])
                       (Page.translatable self)
                       (ua_title update_attrs) (ua_slug update_attrs)
                       (ua_live update_attrs) EmptyString None lang in
            (Ok c, save_page c db)
        | None => (Err IntegrityError, db)
        end
    | PNone | PItem _ => (Err AttributeError, db)
    end.

(** ** TranslatablePageMixin (models.py 168-309) *)

Definition translatable_page_item (db : DB) (self : Page.t) : option Item.t :=
  first (filter (fun i => fk_is (Item.page i) (Page.pk self))
                (TranslatablePageItem_objects db)).

Definition language (db : DB) (self : Page.t) : option Language.t :=
  match translatable_page_item db self with
  | Some item => Language_by_pk db (Item.language item)
  | None => None
  end.

Definition has_translation (db : DB) (self : Page.t) (lang : Language.t) : bool :=
  exists_ (filter (fun i => fk_is (Item.canonical_page i) (Page.pk self)
                            && (Item.language i =? Language.pk lang))
                  (TranslatablePageItem_objects db)).

(** [page__path__startswith=prefix] on a [TranslatablePageItem]. *)
Definition page__path__startswith (db : DB) (i : Item.t) (prefix : list nat) : bool :=
  match Item.page i with
  | Some k => match Page_by_pk db k with
              | Some p => startswith (Page.path p) prefix
              | None => false
              end
  | None => false
  end.

(** [Language.has_pages_in_site] (models.py 112-113); the language itself
    is not part of the query. *)
Definition has_pages_in_site (db : DB) (lang : Language.t) (site : option Site.t)
    : Result bool :=
  match site with
  | None => Err AttributeError
  | Some s =>
      match root_page db s with
      | None => Err AttributeError
      | Some r =>
          Ok (exists_ (filter (fun i => page__path__startswith db i (Page.path r))
                              (TranslatablePageItem_objects db)))
      end
  end.

Definition get_translation_parent (db : DB) (self : Page.t) (lang : Language.t)
    : Result ParentRef :=
  let site := get_site db self in
  let? has := has_pages_in_site db lang site in
  match site with
  | None => Err AttributeError
  | Some s =>
      match root_page db s with
      | None => Err AttributeError
      | Some r =>
          if negb has then Ok (PPage r)
          else
            let translation_parent :=
              first (filter (fun i =>
                       page__path__startswith db i (Page.path r)
                       && opt_eqb (Item.canonical_page i)
                                  (option_map Page.pk (get_parent db self))
                       && (Item.language i =? Language.pk lang))
                     (TranslatablePageItem_objects db)) in
            match translation_parent with
            | Some i => Ok (PItem i)
            | None => Ok PNone
            end
      end
  end.

(** [parent != self.get_parent()]: model instances are equal when they are
    of the same model and have the same primary key. *)
Definition parent_differs (parent : ParentRef) (actual : option Page.t) : bool :=
  match parent, actual with
  | PNone, None => false
  | PPage p, Some q => negb (Page.pk p =? Page.pk q)
  | _, _ => true
  end.

(** [TranslatablePageItem.objects.create(...)]. *)
Definition create_item (i : Item.t) (db : DB) : DB :=
  mkDB (languages db) (pages db) (items db ++ [i]) (sites db)
       (site_languages db) (moves db).

Definition create_translation (self : Page.t) (lang : Language.t)
    (copy_fields : bool) (parent : option Page.t) : M Page.t :=
  let* exists_already := query (fun db => has_translation db self lang) in
  if exists_already then raise TranslationAlreadyExists
  else
    let* parent :=
      match parent with
      | Some p => ret (PPage p)
      | None => query_or_raise (fun db => get_translation_parent db self lang)
      end in
    let* self_language :=
      query_or_raise (fun db => match language db self with
                                | Some l => Ok l
                                | None => Err AttributeError
                                end) in
    let slug :=
      if String.eqb (Page.slug self) (Language.code self_language)
      then Language.code lang
      else (Page.slug self ++ "-" ++ Language.code lang)%string in
    let update_attrs := mkAttrs (Page.title self) slug false in
    let* new_page :=
      if copy_fields then
        let* actual_parent := query (fun db => get_parent db self) in
        if parent_differs parent actual_parent
        then copy self update_attrs parent
        else copy self update_attrs PNone
      else add_child_new self update_attrs parent in
    let* _ := modify (create_item (Item.mk (Some (Page.pk new_page))
                                           (Some (Page.pk self))
                                           (Language.pk lang))) in
    ret new_page.

(** *** The host's [Page.move(target, pos)]

    The tree library places the page relative to [target]: as a sibling
    ([first-sibling], [left], [right], [last-sibling]) or as a child
    ([first-child], [last-child]); without [pos] the page becomes the last
    sibling of [target]. Siblings in the way are shifted one step to the
    right, with their branches. The in-memory instances ([self], [target])
    are not refreshed. *)

Definition set_path (p : Page.t) (path : list nat) : Page.t :=
  Page.mk (Page.pk p) path (Page.translatable p) (Page.title p) (Page.slug p)
          (Page.live p) (Page.content p) (Page.canonical_page_id p)
          (Page.language_id p).

(** The last steps of the children of the node at [parent_path], in order. *)
Definition child_steps (db : DB) (parent_path : list nat) : list nat :=
  map (fun p => last (Page.path p) 0%nat)
      (filter (fun p => negb (path_eqb (Page.path p) [])
                        && path_eqb (removelast (Page.path p)) parent_path)
              (Page_objects db)).

(** The siblings that have to make room: the run of steps that starts at
    the new position without a hole. *)
Fixpoint shift_run (prior : nat) (steps : list nat) : list nat :=
  match steps with
  | [] => []
  | s :: rest => if Nat.ltb prior s then [] else s :: shift_run (S s) rest
  end.

Inductive Placement :=
| Refused     (* the host raises: not a position, or a move under the page itself *)
| Unmoved     (* the page is already there *)
| Placed (parent_path : list nat) (step : nat) (shifted : list nat).

(** [target.is_descendant_of(node)]. *)
Definition is_descendant_path (target_path node_path : list nat) : bool :=
  startswith target_path node_path
  && Nat.ltb (List.length node_path) (List.length target_path).

(** Placement as a sibling of the node at [target_path]. *)
Definition place_sibling (db : DB) (old_path target_path : list nat)
    (pos : string) : Placement :=
  let parent_path := removelast target_path in
  let target_step := last target_path 0%nat in
  let siblings := child_steps db parent_path in
  let is_last := Nat.eqb target_step (last siblings 0%nat) in
  let is_first := Nat.eqb target_step (hd 0%nat siblings) in
  if is_descendant_path target_path old_path then Refused
  else if path_eqb old_path target_path
          && (String.eqb pos "left"
              || ((String.eqb pos "right" || String.eqb pos "last-sibling") && is_last)
              || (String.eqb pos "first-sibling" && is_first))
  then Unmoved
  else if String.eqb pos "last-sibling" || (String.eqb pos "right" && is_last)
  then Placed parent_path (S (last siblings 0%nat)) []
  else if String.eqb pos "first-sibling"
  then Placed parent_path 1 (shift_run 1 siblings)
  else if String.eqb pos "left"
  then Placed parent_path target_step
              (shift_run target_step
                         (filter (fun s => Nat.leb target_step s) siblings))
  else Placed parent_path (S target_step)
              (shift_run (S target_step)
                         (filter (fun s => Nat.ltb target_step s) siblings)).

Definition placement (db : DB) (self target : Page.t) (pos : option string)
    : Placement :=
  let pos := match pos with Some s => s | None => "last-sibling"%string end in
  let old_path := Page.path self in
  if String.eqb pos "first-child" || String.eqb pos "last-child" then
    match child_steps db (Page.path target) with
    | [] =>
        (* the target is a leaf: the page becomes its first child *)
        if is_descendant_path (Page.path target) old_path then Refused
        else if path_eqb old_path (Page.path target)
                && Nat.eqb (last (Page.path target) 0%nat)
                           (hd 0%nat (child_steps db (removelast (Page.path target))))
        then Unmoved
        else Placed (Page.path target) 1 []
    | s :: steps =>
        (* a sibling of the last child of the target *)
        place_sibling db old_path (Page.path target ++ [last (s :: steps) 0%nat])
          (if String.eqb pos "first-child" then "first-sibling" else "last-sibling")
    end
  else if String.eqb pos "first-sibling" || String.eqb pos "left"
          || String.eqb pos "right" || String.eqb pos "last-sibling"
  then place_sibling db old_path (Page.path target) pos
  else Refused.

(** The new path of the node at [q]. *)
Definition moved_path (old_path : list nat) (pl : Placement) (q : list nat)
    : list nat :=
  match pl with
  | Refused | Unmoved => q
  | Placed parent_path step shifted =>
      if startswith q old_path
      then (parent_path ++ [step]) ++ skipn (List.length old_path) q
      else
        match nth_error q (List.length parent_path) with
        | Some s =>
            if startswith q parent_path && existsb (Nat.eqb s) shifted
            then (parent_path ++ [S s]) ++ skipn (S (List.length parent_path)) q
            else q
        | None => q
        end
  end.

Definition host_move (self target : Page.t) (pos : option string) (db : DB) : DB :=
  let pl := placement db self target pos in
  mkDB (languages db)
       (map (fun p => set_path p (moved_path (Page.path self) pl (Page.path p)))
            (pages db))
       (items db) (sites db) (site_languages db) (moves db).

(** Trace of the calls of [TranslatablePageMixin.move], in call order. *)
Definition log_move (c : MoveCall.t) (db : DB) : DB :=
  mkDB (languages db) (pages db) (items db) (sites db)
       (site_languages db) (moves db ++ [c]).

(** [SiteLanguages.for_site(site)]: the host's [get_or_create(site=site)]. *)
Definition for_site (site : option Site.t) : M SiteLanguages.t :=
  fun db =>
    match site with
    | None => (Err IntegrityError, db)
    | Some s =>
        match first (filter (fun r => SiteLanguages.site r =? Site.pk s)
                            (site_languages db)) with
        | Some r => (Ok r, db)
        | None =>
            let r := SiteLanguages.mk (Site.pk s) None [] in
            (Ok r, mkDB (languages db) (pages db) (items db) (sites db)
                        (site_languages db ++ [r]) (moves db))
        end
    end.

(** Lines 261-266 of [move]: is the language of [self] the default one. *)
Definition move_is_default (cfg : Settings) (self : Page.t) : M bool :=
  if LANGUAGES_PER_SITE cfg then
    let* site := query (fun db => get_site db self) in
    let* lang_settings := for_site site in
    query (fun db => opt_eqb (SiteLanguages.default_language lang_settings)
                             (option_map Language.pk (language db self)))
  else
    query_or_raise (fun db => match language db self with
                              | Some l => Ok (Language.is_default l)
                              | None => Err AttributeError
                              end).

(** [getattr(canonical_target, 'canonical_page', False)] and the
    reassignment under it (models.py 282-283). *)
Definition resolve_canonical_target (db : DB) (canonical_target : Page.t)
    : Result Page.t :=
  if Page.translatable canonical_target then
    match Page.canonical_page_id canonical_target with
    | Some c =>
        match first (filter (fun p => Page.pk p =? c) (TranslatablePage_objects db)) with
        | Some q => Ok q
        | None => Err (DoesNotExist MTranslatablePage)
        end
    | None => Ok canonical_target
    end
  else Ok canonical_target.

(** The queryset of models.py 287-290, before [.get()]; [page] is a row
    of [TranslatablePage.objects] and [page.language] its column. *)
Definition sync_target_candidates (db : DB) (page canonical_target : Page.t)
    : list Page.t :=
  filter (fun t => (Page.language_id t =? Page.language_id page)
                   && (fk_is (Page.canonical_page_id t) (Page.pk canonical_target)
                       || (Page.pk t =? Page.pk canonical_target)))
         (TranslatablePage_objects db).

(** [page.move(target=target, pos=pos, suppress_sync=True)] (models.py 292)
    on a row of [TranslatablePage.objects]. [TranslatablePage] does not
    have the mixin, so this is the host's [Page.move(target, pos)], which
    takes no [suppress_sync]: the call raises [TypeError] and moves
    nothing. *)
Definition Page_move_suppress_sync (page target : Page.t) (pos : option string)
    : M unit :=
  raise TypeError.

(** The body of the loop of [move_translated_pages] (models.py 285-292). *)
Definition propagate_step (canonical_target : Page.t) (pos : option string)
    (page : Page.t) : M unit :=
  let* target :=
    query_or_raise (fun db =>
      get MTranslatablePage (sync_target_candidates db page canonical_target)) in
  Page_move_suppress_sync page target pos.

Definition move_translated_pages
    (self canonical_target : Page.t) (pos : option string) : M unit :=
  let* translations := query (fun db => get_translations db self false false) in
  let* canonical_target :=
    query_or_raise (fun db => resolve_canonical_target db canonical_target) in
  for_each (propagate_step canonical_target pos) translations.

Definition move (cfg : Settings) (self target : Page.t)
    (pos : option string) (suppress_sync : bool) : M unit :=
  let* _ := modify (host_move self target pos) in
  let* _ := modify (log_move (MoveCall.mk (Page.pk self) (Page.pk target)
                                          pos suppress_sync)) in
  let* is_default := move_is_default cfg self in
  if negb suppress_sync && SYNC_TREE cfg && is_default
  then move_translated_pages self target pos
  else ret tt.

(** ** Request routing (models.py 365-402) *)

Record Request := mkRequest {
  LANGUAGE_CODE : option string;    (* None: the request has no such attribute *)
  request_site : option Site.t
}.

Inductive Response :=
| Redirect (page_url : Z).           (* redirect to the URL of that page *)

(** [Language.objects.default_for_site(site)] (managers.py is not part of
    the sources). Modelled from the spec: in global mode the single
    [Language] with [is_default = true]; in per-site mode the
    [default_language] of the site's [SiteLanguages]. *)
Definition default_for_site (cfg : Settings) (db : DB) (site : option Site.t)
    : option Language.t :=
  if LANGUAGES_PER_SITE cfg then
    match site with
    | Some s =>
        match first (filter (fun r => SiteLanguages.site r =? Site.pk s)
                            (site_languages db)) with
        | Some r => match SiteLanguages.default_language r with
                    | Some k => Language_by_pk db k
                    | None => None
                    end
        | None => None
        end
    | None => None
    end
  else Language_default db.

(** [Language.objects.live()] (managers.py is not part of the sources).
    Modelled from the spec: the languages with [live = true]. *)
Definition Language_live (db : DB) : list Language.t :=
  filter Language.live (Language_objects db).

Definition get_user_language (cfg : Settings) (db : DB) (request : Request)
    : option Language.t :=
  let fallback := default_for_site cfg db (request_site request) in
  match LANGUAGE_CODE request with
  | Some c =>
      match first (filter (fun l => String.eqb (Language.code l) c)
                          (Language_live db)) with
      | Some l => Some l
      | None => fallback
      end
  | None => fallback
  end.

(** The queryset [candidates] of [TranslatableSiteRootPage.serve]. *)
Definition serve_candidates (db : DB) (self : Page.t) (lang : option Language.t)
    : list Item.t :=
  let root_pages := filter Page.live (get_children db self) in
  match lang with
  | Some l =>
      filter (fun i => match Item.page i with
                       | Some k => existsb (fun p => Page.pk p =? k) root_pages
                       | None => false
                       end
                       && (Item.language i =? Language.pk l))
             (TranslatablePageItem_objects db)
  | None => []
  end.

(** [candidates.get()] is a query on [TranslatablePageItem]; the handler
    catches [TranslatablePage.DoesNotExist]. *)
Definition serve (cfg : Settings) (db : DB) (self : Page.t) (request : Request)
    : Result Response :=
  let lang := get_user_language cfg db request in
  let candidates := serve_candidates db self lang in
  match get MTranslatablePageItem candidates with
  | Ok translation =>
      match Item.page translation with
      | Some k => Ok (Redirect k)
      | None => Err AttributeError
      end
  | Err (DoesNotExist MTranslatablePage) => Err Http404
  | Err e => Err e
  end.

(** ** Signal handlers (signals.py) *)

Definition synchronize_trees (cfg : Settings) (instance : Page.t)
    (created : bool) : M unit :=
  let* instance_language :=
    query (fun db => if Page.translatable instance
                     then language db instance else None) in
  let* site := query (fun db => get_site db instance) in
  if negb created
     || negb (SYNC_TREE cfg)
     || match instance_language with
        | Some l => negb (Language.is_default l)
        | None => true
        end
     || match site with Some _ => false | None => true end
  then ret tt
  else
    let* other_languages :=
      query (fun db => filter (fun l => negb (Language.is_default l))
                              (Language_objects db)) in
    for_each (fun lang =>
                let* _ := create_translation instance lang true None in ret tt)
             other_languages.

(** [QuerySet.delete()] on pages. The tree manager deletes the selected
    rows with their descendants; the foreign keys of models.py decide the
    rest: [TranslatablePageItem.page] is [PROTECT],
    [TranslatablePageItem.canonical_page] is [CASCADE] and
    [TranslatablePage.canonical_page] is [SET_NULL]. *)
Definition in_deleted (rows : list Page.t) (p : Page.t) : bool :=
  existsb (fun r => startswith (Page.path p) (Page.path r)) rows.

Definition pk_deleted (db : DB) (rows : list Page.t) (k : option Z) : bool :=
  match k with
  | Some k => existsb (fun p => (Page.pk p =? k) && in_deleted rows p) (pages db)
  | None => false
  end.

Definition set_null (db : DB) (rows : list Page.t) (p : Page.t) : Page.t :=
  if pk_deleted db rows (Page.canonical_page_id p)
  then Page.mk (Page.pk p) (Page.path p) (Page.translatable p) (Page.title p)
         (Page.slug p) (Page.live p) (Page.content p) None (Page.language_id p)
  else p.

Definition delete_pages (rows : list Page.t) : M unit :=
  fun db =>
    if existsb (fun i => pk_deleted db rows (Item.page i)) (items db)
    then (Err ProtectedError, db)
    else
      (Ok tt,
       mkDB (languages db)
            (map (set_null db rows)
                 (filter (fun p => negb (in_deleted rows p)) (pages db)))
            (filter (fun i => negb (pk_deleted db rows (Item.canonical_page i)))
                    (items db))
            (sites db) (site_languages db) (moves db)).

Definition synchronize_deletions (cfg : Settings) (instance : Page.t) : M unit :=
  let* page := query (fun db => first (filter (fun p => Page.pk p =? Page.pk instance)
                                              (TranslatablePage_objects db))) in
  match page with
  | Some page =>
      if SYNC_TREE cfg
      then
        let* rows := query (fun db =>
          filter (fun p => fk_is (Page.canonical_page_id p) (Page.pk page))
                 (TranslatablePage_objects db)) in
        delete_pages rows
      else ret tt
  | None => ret tt
  end.

(** ** Predicates on the database *)

(** The slug rule of [create_translation] (models.py 221-224). *)
Definition translation_slug (self : Page.t) (self_language lang : Language.t)
    : string :=
  if String.eqb (Page.slug self) (Language.code self_language)
  then Language.code lang
  else (Page.slug self ++ "-" ++ Language.code lang)%string.

Definition is_none {A} (o : option A) : bool :=
  match o with None => true | Some _ => false end.

(** No chained translations in the registry: when an item names a
    canonical page, the item of that page names none. *)
Definition no_chained_translations (db : DB) : bool :=
  forallb (fun i =>
    match Item.canonical_page i with
    | None => true
    | Some c =>
        forallb (fun j => implb (fk_is (Item.page j) c)
                                (is_none (Item.canonical_page j)))
                (items db)
    end) (items db).

(** The source of a translation is canonical: its own item names no
    canonical page. *)
Definition source_is_canonical (db : DB) (self : Page.t) : bool :=
  forallb (fun j => implb (fk_is (Item.page j) (Page.pk self))
                          (is_none (Item.canonical_page j)))
          (items db).

(** Referential integrity of [TranslatablePageItem]: both foreign keys
    point to rows of the page table. *)
Definition refers_to_page (db : DB) (k : option Z) : bool :=
  match k with
  | None => true
  | Some k => existsb (fun p => Page.pk p =? k) (pages db)
  end.

Definition fk_integrity (db : DB) : bool :=
  forallb (fun i => refers_to_page db (Item.page i)
                    && refers_to_page db (Item.canonical_page i))
          (items db).

(** [synchronize_deletions]: the page is a tracked translatable page. *)
Definition tracked (db : DB) (instance : Page.t) : bool :=
  exists_ (filter (fun p => Page.pk p =? Page.pk instance)
                  (TranslatablePage_objects db)).

(** The rows [synchronize_deletions] asks to delete. *)
Definition translations_of (db : DB) (instance : Page.t) : list Page.t :=
  filter (fun p => fk_is (Page.canonical_page_id p) (Page.pk instance))
         (TranslatablePage_objects db).

(** A [TranslatablePageItem] protects one of the rows to delete. *)
Definition protected (db : DB) (rows : list Page.t) : bool :=
  existsb (fun i => pk_deleted db rows (Item.page i)) (items db).

(** The languages [synchronize_trees] translates into. *)
Definition other_languages (db : DB) : list Language.t :=
  filter (fun l => negb (Language.is_default l)) (Language_objects db).


(** The row of a page without its place in the tree. *)
Definition columns (p : Page.t) : Page.t :=
  Page.mk (Page.pk p) [] (Page.translatable p) (Page.title p) (Page.slug p)
          (Page.live p) (Page.content p) (Page.canonical_page_id p)
          (Page.language_id p).

(** Two databases with the same languages and registry, and the same
    pages up to their places in the tree: what moves leave unchanged. *)
Definition same_rows (a b : DB) : Prop :=
  items a = items b /\ languages a = languages b /\
  map columns (pages a) = map columns (pages b).

(** The call [self.move(target, pos)] as it is logged. *)
Definition own_call (self target : Page.t) (pos : option string) : MoveCall.t :=
  MoveCall.mk (Page.pk self) (Page.pk target) pos false.

(** The database once the host has moved [self] and the call is logged. *)
Definition moved (self target : Page.t) (pos : option string) (db : DB) : DB :=
  log_move (own_call self target pos) (host_move self target pos db).


(** ** A site with three languages, used to evaluate the code *)

Module Scenario.
Open Scope string_scope.

Definition en := Language.mk 1 "en" true 0 true.
Definition fr := Language.mk 2 "fr" false 2 true.
Definition nl := Language.mk 3 "nl" false 1 true.
(** German is registered but not live. *)
Definition de := Language.mk 4 "de" false 3 false.
(** Spanish is live but has no page. *)
Definition es := Language.mk 5 "es" false 4 true.

Definition page (pk : Z) (path : list nat) (slug : string)
    (canonical : option Z) (lang : Z) : Page.t :=
  Page.mk pk path true slug slug true "body" canonical lang.

Definition site_root := Page.mk 1 [1%nat] false "root" "root" true "" None 0.
Definition home := page 2 [1; 1]%nat "home" None 1.
Definition home_fr := page 3 [1; 2]%nat "home-fr" (Some 2) 2.
Definition home_nl := page 4 [1; 3]%nat "home-nl" (Some 2) 3.
Definition about := page 5 [1; 1; 1]%nat "about" None 1.
Definition about_fr := page 6 [1; 2; 1]%nat "about-fr" (Some 5) 2.
Definition about_nl := page 7 [1; 3; 1]%nat "about-nl" (Some 5) 3.
Definition team := page 8 [1; 1; 2]%nat "team" None 1.
Definition team_fr := page 9 [1; 2; 2]%nat "team-fr" (Some 8) 2.
Definition team_nl := page 10 [1; 3; 2]%nat "team-nl" (Some 8) 3.

Definition item (p : Z) (canonical : option Z) (lang : Z) : Item.t :=
  Item.mk (Some p) canonical lang.

Definition site := Site.mk 1 1.

(** Three synchronised trees: home, home/about and home/team. *)
Definition db : DB :=
  mkDB [en; fr; nl; de; es]
       [site_root; home; home_fr; home_nl; about; about_fr; about_nl;
        team; team_fr; team_nl]
       [item 2 None 1; item 3 (Some 2) 2; item 4 (Some 2) 3;
        item 5 None 1; item 6 (Some 5) 2; item 7 (Some 5) 3;
        item 8 None 1; item 9 (Some 8) 2; item 10 (Some 8) 3]
       [site] [] [].

(** The same trees without the Dutch team page. *)
Definition db_out_of_sync : DB :=
  mkDB [en; fr; nl; de; es]
       [site_root; home; home_fr; home_nl; about; about_fr; about_nl;
        team; team_fr]
       [item 2 None 1; item 3 (Some 2) 2; item 4 (Some 2) 3;
        item 5 None 1; item 6 (Some 5) 2; item 7 (Some 5) 3;
        item 8 None 1; item 9 (Some 8) 2]
       [site] [] [].

(** A fresh site: only the canonical home page exists. *)
Definition db_fresh : DB :=
  mkDB [en; fr; nl; de] [site_root; home] [item 2 None 1] [site] [] [].

(** Translations recorded in the [canonical_page] column only. *)
Definition db_columns : DB :=
  mkDB [en; fr; nl] [site_root; home; home_fr; home_nl]
       [item 2 None 1] [site] [] [].

(** What [create_translation] makes of [home] for French in [db_fresh]. *)
Definition home_fr_created :=
  Page.mk 3 [1; 2]%nat true "home" "home-fr" false "body" None 1.

Definition global_sync := mkSettings true false.
Definition global_no_sync := mkSettings false false.
End Scenario.

(** ** More of models.py and signals.py *)

(** Truth value of an optional key: [None] and [0] are falsy. *)
Definition truthy_pk (a : option Z) : bool :=
  match a with
  | Some c => negb (c =? 0)
  | None => false
  end.

(** [has_translations] (models.py 181-183): [self.translations] is the
    reverse of the [canonical_page] key of [TranslatablePage]. *)
Definition has_translations (db : DB) (self : Page.t) : bool :=
  exists_ (filter (fun p => fk_is (Page.canonical_page_id p) (Page.pk self))
                  (TranslatablePage_objects db)).

(** [is_canonical] (models.py 185-187). *)
Definition is_canonical (db : DB) (self : Page.t) : bool :=
  negb (truthy_pk (Page.canonical_page_id self)) && has_translations db self.

(** The canonical id [get_translations] starts from (models.py 349). *)
Definition canonical_id (p : Page.t) : Z :=
  or_pk (Page.canonical_page_id p) (Page.pk p).

(** Result of a form's [clean_<field>] method. *)
Inductive Cleaned (A : Type) :=
| Valid (a : A)
| ValidationError (message : string).
Arguments Valid {A} a.
Arguments ValidationError {A} message.

(** [self.initial.get('is_default')] is [None] on a form without that
    initial value. *)
Definition initial_truthy (initial : option bool) : bool :=
  match initial with
  | Some b => b
  | None => false
  end.

(** [WagtailAdminLanguageForm.clean_is_default] (models.py 50-58). *)
Definition clean_is_default (initial : option bool) (is_default : bool)
    : Cleaned bool :=
  if initial_truthy initial && negb is_default
  then ValidationError
         ("You can not remove is_default from a language. To change the "
          ++ "default language, select is_default on a different language")
  else Valid is_default.

(** [initial == is_default] between an optional and a plain boolean. *)
Definition initial_is (initial : option bool) (is_default : bool) : bool :=
  match initial with
  | Some b => Bool.eqb b is_default
  | None => false
  end.

(** The guard of [WagtailAdminLanguageForm.save] (models.py 60-68): does
    the form call [change_default_language] before it saves. *)
Definition save_changes_default (cfg : Settings) (initial : option bool)
    (is_default : bool) : bool :=
  negb (initial_is initial is_default)
  && is_default
  && negb (LANGUAGES_PER_SITE cfg).

(** [cleaned_data] of [SiteLanguagesForm]: [default_language] is missing
    when that field did not validate. *)
Record SiteLanguagesData := mkSiteLanguagesData {
  cleaned_default_language : option Z;
  cleaned_other_languages : list Z
}.

(** [SiteLanguagesForm.clean_other_languages] (models.py 426-432). *)
Definition clean_other_languages (cleaned_data : SiteLanguagesData)
    : Cleaned (list Z) :=
  match cleaned_default_language cleaned_data with
  | Some d =>
      if existsb (Z.eqb d) (cleaned_other_languages cleaned_data)
      then ValidationError "Default language cannot be in other_languages"
      else Valid (cleaned_other_languages cleaned_data)
  | None => Valid (cleaned_other_languages cleaned_data)
  end.

(** [page.get_descendants(inclusive=True)] of the host. *)
Definition get_descendants_inclusive (db : DB) (p : Page.t) : list Page.t :=
  filter (fun q => startswith (Page.path q) (Page.path p)) (Page_objects db).

(** [get_default_language] is imported by signals.py from models.py,
    which does not define it. Modelled from the spec: the single
    [Language] with [is_default = true]. *)
Definition get_default_language (db : DB) : option Language.t :=
  Language_default db.

(** The query for [canonical_home_page] in [create_new_language_tree]
    (signals.py 68-72). *)
Definition canonical_home_page (db : DB) (site : Site.t) : Result (option Page.t) :=
  match root_page db site with
  | None => Err AttributeError
  | Some r =>
      let site_pages := map Page.pk (get_children db r) in
      Ok (match get_default_language db with
          | Some l =>
              first (filter (fun p => existsb (Z.eqb (Page.pk p)) site_pages
                                      && (Page.language_id p =? Language.pk l))
                            (TranslatablePage_objects db))
          | None => None
          end)
  end.

Section LanguageCreated.

(** [get_or_create_language_group] followed by [create_group_permissions]
    (permissions.py is not part of the sources): whatever they do to the
    database. *)
Variable provision_group : Language.t -> M unit.

(** The body of the loop over the descendants (signals.py 74-75);
    [child_page.specific] has [create_translation] when the page is a
    translatable one. *)
Definition translate_descendant (instance : Language.t) (child_page : Page.t)
    : M unit :=
  if Page.translatable child_page
  then let* _ := create_translation child_page instance true None in ret tt
  else raise AttributeError.

(** The body of the loop over the sites (signals.py 67-75). *)
Definition translate_site (instance : Language.t) (site : Site.t) : M unit :=
  let* home := query_or_raise (fun db => canonical_home_page db site) in
  match home with
  | None => raise AttributeError
  | Some home =>
      let* descendants := query (fun db => get_descendants_inclusive db home) in
      for_each (translate_descendant instance) descendants
  end.

(** [create_new_language_tree] (signals.py 49-75). *)
Definition create_new_language_tree (cfg : Settings) (instance : Language.t)
    (created : bool) : M unit :=
  let* _ := if created then provision_group instance else ret tt in
  if negb created || negb (SYNC_TREE cfg) then ret tt
  else
    let* all_sites := query sites in
    for_each (translate_site instance) all_sites.

End LanguageCreated.

(** The registry and the page table only grew, and every new item is a
    translation into [lang]. *)
Definition grew_by_translations (lang : Language.t) (a b : DB) : Prop :=
  exists new_items new_pages,
    items b = items a ++ new_items /\
    pages b = pages a ++ new_pages /\
    languages b = languages a /\
    Forall (fun i => Item.language i = Language.pk lang
                     /\ Item.canonical_page i <> None) new_items /\
    Forall (fun p => Page.live p = false) new_pages.


(** ** More cases *)

Module Cases.
Open Scope string_scope.

(** A provisioning that writes nothing. *)
Definition no_groups (_ : Language.t) : M unit := ret tt.

(** Two live French pages under the site root. *)
Definition db_two_french : DB :=
  mkDB [Scenario.en; Scenario.fr]
       [Scenario.site_root; Scenario.home; Scenario.home_fr;
        Scenario.page 4 [1; 3]%nat "accueil" (Some 2) 2]
       [Scenario.item 2 None 1; Scenario.item 3 (Some 2) 2;
        Scenario.item 4 (Some 2) 2]
       [Scenario.site] [] [].



(** A site whose root has no page in the default language. *)
Definition db_no_home : DB :=
  mkDB [Scenario.en; Scenario.fr] [Scenario.site_root] [] [Scenario.site] [] [].
End Cases.

(** * Properties *)

Ltac run :=
  unfold bindM, ret, raise, query, query_or_raise, modify in *; simpl in *.

(** ** Querysets *)

Lemma In_insert_by {A} (le : A -> A -> bool) (x y : A) (l : list A) :
  In y (insert_by le x l) <-> y = x \/ In y l.
Proof.
  induction l as [|z l IH]; simpl.
  - intuition.
  - destruct (le x z); simpl; intuition.
Qed.

Lemma In_order_by {A} (le : A -> A -> bool) (y : A) (l : list A) :
  In y (order_by le l) <-> In y l.
Proof.
  unfold order_by. induction l as [|x l IH]; simpl.
  - reflexivity.
  - rewrite In_insert_by, IH. intuition.
Qed.

Lemma filter_insert_by_length {A} (f : A -> bool) (le : A -> A -> bool) x l :
  List.length (filter f (insert_by le x l)) = List.length (filter f (x :: l)).
Proof.
  induction l as [|z l IH]; simpl; auto.
  destruct (le x z); simpl; auto.
  simpl in IH. destruct (f z), (f x); simpl in *; congruence.
Qed.

Lemma filter_order_by_length {A} (f : A -> bool) (le : A -> A -> bool) l :
  List.length (filter f (order_by le l)) = List.length (filter f l).
Proof.
  unfold order_by. induction l as [|x l IH]; simpl; auto.
  rewrite filter_insert_by_length. simpl. destruct (f x); simpl; congruence.
Qed.

Lemma opt_eqb_eq (a b : option Z) : opt_eqb a b = true <-> a = b.
Proof.
  destruct a, b; simpl; try (split; congruence).
  rewrite Z.eqb_eq. split; congruence.
Qed.

Lemma fk_is_eq (c : option Z) (v : Z) : fk_is c v = true <-> c = Some v.
Proof. apply opt_eqb_eq. Qed.

(** ** get_translations *)

(** The rows [get_translations] returns: the translatable pages that share
    the canonical id, without [self] unless asked for, and only the live
    ones in live languages when asked for. *)
Lemma get_translations_In (db : DB) (self p : Page.t) (only_live include_self : bool) :
  In p (get_translations db self only_live include_self) <->
  In p (pages db) /\ Page.translatable p = true /\
  (Page.canonical_page_id p
     = Some (or_pk (Page.canonical_page_id self) (Page.pk self))
   \/ Page.pk p = or_pk (Page.canonical_page_id self) (Page.pk self)) /\
  (include_self = false -> Page.pk p <> Page.pk self) /\
  (only_live = true -> Page.live p = true /\ language__live db p = true).
Proof.
  unfold get_translations, TranslatablePage_objects, Page_objects.
  destruct include_self, only_live; simpl;
    repeat rewrite filter_In; rewrite In_order_by;
    repeat rewrite andb_true_iff; rewrite orb_true_iff, fk_is_eq, Z.eqb_eq;
    try rewrite negb_true_iff, Z.eqb_neq;
    intuition congruence.
Qed.

(** C4. [get_translations] yields its rows in the order of the page
    manager (by path); nothing orders them by the position of their
    language. In the scenario the French home page (position 2) comes
    before the Dutch one (position 1). *)
Theorem get_translations_not_ordered_by_position :
  map (fun p => option_map Language.position
                  (Language_by_pk Scenario.db (Page.language_id p)))
      (get_translations Scenario.db Scenario.home true false)
  = [Some 2; Some 1].
Proof. reflexivity. Qed.

(** ** create_translation *)

Lemma get_translation_parent_error db self lang e :
  get_translation_parent db self lang = Err e -> e = AttributeError.
Proof.
  unfold get_translation_parent, has_pages_in_site, bind.
  destruct (get_site db self) as [s|]; [|congruence].
  destruct (root_page db s) as [r|]; [|congruence].
  destruct (negb _); [congruence|].
  destruct (first _); congruence.
Qed.

Lemma copy_inv self ua to db r db' :
  copy self ua to db = (r, db') ->
  (r = Err AttributeError /\ db' = db) \/
  (exists p, r = Ok p /\ db' = save_page p db /\ Page.pk p = next_pk db /\
             Page.slug p = ua_slug ua /\ Page.live p = ua_live ua /\
             Page.title p = ua_title ua /\
             Page.canonical_page_id p = Page.canonical_page_id self).
Proof.
  unfold copy. destruct to; intros H; inversion H; subst; clear H;
    try (left; split; reflexivity);
    right; eexists; repeat split; reflexivity.
Qed.

Lemma add_child_new_inv self ua parent db r db' :
  add_child_new self ua parent db = (r, db') ->
  ((r = Err AttributeError \/ r = Err IntegrityError) /\ db' = db) \/
  (exists p, r = Ok p /\ db' = save_page p db /\ Page.pk p = next_pk db /\
             Page.slug p = ua_slug ua /\ Page.live p = ua_live ua /\
             Page.title p = ua_title ua /\
             Page.canonical_page_id p = None).
Proof.
  unfold add_child_new. destruct parent; try destruct (_language_default db);
    intros H; inversion H; subst; clear H; auto;
    right; eexists; repeat split; reflexivity.
Qed.

(** Every way [create_translation] can end. *)
Lemma create_translation_inv self lang copy_fields parent db r db' :
  create_translation self lang copy_fields parent db = (r, db') ->
  (has_translation db self lang = true /\ r = Err TranslationAlreadyExists /\ db' = db)
  \/ (has_translation db self lang = false /\
      (r = Err AttributeError \/ r = Err IntegrityError) /\ db' = db)
  \/ (has_translation db self lang = false /\
      exists p self_language,
        r = Ok p /\
        language db self = Some self_language /\
        Page.pk p = next_pk db /\
        Page.slug p = translation_slug self self_language lang /\
        Page.live p = false /\
        Page.title p = Page.title self /\
        db' = create_item (Item.mk (Some (Page.pk p)) (Some (Page.pk self))
                                   (Language.pk lang))
                          (save_page p db)).
Proof.
  unfold create_translation, bindM, ret, raise, query, query_or_raise, modify.
  cbv beta. intros H.
  destruct (has_translation db self lang) eqn:Hhas.
  - inversion H; auto.
  - right.
    assert (Hp : exists rp, (match parent return M ParentRef with
             | Some p => fun db0 => (Ok (PPage p), db0)
             | None => fun db0 => (get_translation_parent db0 self lang, db0)
             end) db = (rp, db) /\ (forall e, rp = Err e -> e = AttributeError)).
    { destruct parent; eexists; split; try reflexivity; try congruence.
      intros e. apply get_translation_parent_error. }
    destruct Hp as (rp & Hp & Hrp). rewrite Hp in H. clear Hp.
    destruct rp as [pr|e].
    2:{ inversion H; subst. left. rewrite (Hrp e eq_refl). auto. }
    destruct (language db self) as [sl|] eqn:Hl.
    2:{ inversion H; subst. left. auto. }
    fold (translation_slug self sl lang) in H.
    destruct copy_fields.
    + destruct (parent_differs pr (get_parent db self));
        (destruct (copy _ _ _ db) as [rc dbc] eqn:Hc;
         apply copy_inv in Hc;
         destruct Hc as [[-> ->] | (p & -> & -> & Hpk & Hs & Hlive & Ht & _)];
         inversion H; subst; clear H;
         [ left; auto
         | right; split; auto; exists p, sl; simpl in *; repeat split; auto ]).
    + destruct (add_child_new _ _ _ db) as [rc dbc] eqn:Hc.
      apply add_child_new_inv in Hc.
      destruct Hc as [[Hr ->] | (p & -> & -> & Hpk & Hs & Hlive & Ht & _)].
      * left. destruct Hr as [-> | ->]; inversion H; subst; auto.
      * inversion H; subst; clear H.
        right; split; auto; exists p, sl; simpl in *; repeat split; auto.
Qed.

(** The row a successful [create_translation] saves, and the parent it
    was given or resolved. *)
Lemma create_translation_ok self lang copy_fields parent db p db' :
  create_translation self lang copy_fields parent db = (Ok p, db') ->
  exists pr sl,
    match parent with
    | Some q => pr = PPage q
    | None => get_translation_parent db self lang = Ok pr
    end /\
    language db self = Some sl /\
    has_translation db self lang = false /\
    db' = create_item (Item.mk (Some (Page.pk p)) (Some (Page.pk self))
                               (Language.pk lang))
                      (save_page p db) /\
    if copy_fields
    then exists parent_path,
           p = Page.mk (next_pk db) (parent_path ++ [next_step db parent_path])
                 (Page.translatable self) (Page.title self)
                 (translation_slug self sl lang) false (Page.content self)
                 (Page.canonical_page_id self) (Page.language_id self)
    else exists r dl,
           pr = PPage r /\ _language_default db = Some dl /\
           p = Page.mk (next_pk db) (Page.path r ++ [next_step db (Page.path r)])
                 (Page.translatable self) (Page.title self)
                 (translation_slug self sl lang) false EmptyString None dl.
Proof.
  unfold create_translation, bindM, ret, raise, query, query_or_raise, modify.
  cbv beta. intros H.
  destruct (has_translation db self lang) eqn:Hhas; [discriminate|].
  assert (Hp : exists rp,
             (match parent return M ParentRef with
              | Some q => fun db0 => (Ok (PPage q), db0)
              | None => fun db0 => (get_translation_parent db0 self lang, db0)
              end) db = (rp, db) /\
             (forall pr, rp = Ok pr ->
                match parent with
                | Some q => pr = PPage q
                | None => get_translation_parent db self lang = Ok pr
                end)).
  { destruct parent; eexists; split; try reflexivity; congruence. }
  destruct Hp as (rp & Hp & Hrp). rewrite Hp in H. clear Hp.
  destruct rp as [pr|e]; [|discriminate].
  specialize (Hrp pr eq_refl).
  destruct (language db self) as [sl|] eqn:Hl; [|discriminate].
  fold (translation_slug self sl lang) in H.
  exists pr, sl. split; auto. split; auto. split; auto.
  destruct copy_fields.
  - destruct (parent_differs pr (get_parent db self)).
    + unfold copy in H. destruct pr as [|q|i]; inversion H; subst; clear H;
        (split; [reflexivity | eexists; reflexivity]).
    + unfold copy in H. inversion H; subst; clear H.
      split; [reflexivity | eexists; reflexivity].
  - unfold add_child_new in H. destruct pr as [|q|i]; try discriminate.
    destruct (_language_default db) as [dl|]; [|discriminate].
    inversion H; subst; clear H.
    split; [reflexivity|]. exists q, dl. auto.
Qed.

Lemma has_translation_spec db self lang :
  has_translation db self lang = true <->
  exists i, In i (items db) /\ Item.canonical_page i = Some (Page.pk self) /\
            Item.language i = Language.pk lang.
Proof.
  unfold has_translation, TranslatablePageItem_objects.
  set (f := fun i => _ && _).
  assert (Hf : forall i, f i = true <->
            Item.canonical_page i = Some (Page.pk self) /\
            Item.language i = Language.pk lang).
  { intros i. unfold f. rewrite andb_true_iff, fk_is_eq, Z.eqb_eq. reflexivity. }
  split.
  - destruct (filter f (items db)) as [|i q] eqn:Hq; simpl; [discriminate|].
    intros _. exists i.
    assert (Hi : In i (filter f (items db))) by (rewrite Hq; left; reflexivity).
    apply filter_In in Hi. destruct Hi as [Hi Hfi]. apply Hf in Hfi. tauto.
  - intros (i & Hi & Hc & Hl).
    assert (Hin : In i (filter f (items db))).
    { apply filter_In. split; auto. apply Hf. auto. }
    destruct (filter f (items db)); [destruct Hin | reflexivity].
Qed.

(** C5. [create_translation] raises "Translation already exists" exactly
    when [has_translation] holds, that is when a [TranslatablePageItem] with
    this canonical page and language exists; it then leaves the database as
    it found it. *)
Theorem create_translation_conflict_iff
    (self : Page.t) (lang : Language.t) (copy_fields : bool)
    (parent : option Page.t) (db : DB) :
  (fst (create_translation self lang copy_fields parent db)
     = Err TranslationAlreadyExists
   <-> has_translation db self lang = true) /\
  (create_translation self lang copy_fields parent db
     = (Err TranslationAlreadyExists, db)
   <-> has_translation db self lang = true) /\
  (has_translation db self lang = true
   <-> exists i, In i (items db) /\ Item.canonical_page i = Some (Page.pk self) /\
                 Item.language i = Language.pk lang).
Proof.
  destruct (create_translation self lang copy_fields parent db) as [r db'] eqn:Hrun.
  pose proof (create_translation_inv _ _ _ _ _ _ _ Hrun) as Hinv.
  simpl. split; [|split].
  - split.
    + intros ->.
      destruct Hinv as [(? & _) | [(_ & [?|?] & _) | (_ & p & sl & ? & _)]];
        auto; discriminate.
    + intros Hhas.
      destruct Hinv as [(_ & ? & _) | [(? & _) | (? & _)]]; auto; congruence.
  - split.
    + intros H; inversion H; subst.
      destruct Hinv as [(? & _) | [(_ & [?|?] & _) | (_ & p & sl & ? & _)]];
        auto; discriminate.
    + intros Hhas.
      destruct Hinv as [(_ & -> & ->) | [(? & _) | (? & _)]]; auto; congruence.
  - apply has_translation_spec.
Qed.

(** C6. The page [create_translation] returns has the language code as
    its slug when the source's slug is the code of the source's language,
    and the source's slug, a hyphen and the language code otherwise. *)
Theorem create_translation_slug
    (self : Page.t) (lang : Language.t) (copy_fields : bool)
    (parent : option Page.t) (db : DB) (new_page : Page.t) :
  fst (create_translation self lang copy_fields parent db) = Ok new_page ->
  exists self_language,
    language db self = Some self_language /\
    Page.slug new_page =
      if String.eqb (Page.slug self) (Language.code self_language)
      then Language.code lang
      else (Page.slug self ++ "-" ++ Language.code lang)%string.
Proof.
  destruct (create_translation self lang copy_fields parent db) as [r db'] eqn:Hrun.
  simpl. intros ->.
  apply create_translation_inv in Hrun.
  destruct Hrun as [(_ & ? & _) | [(_ & [?|?] & _) | (_ & p & sl & Hp & Hl & _ & Hs & _)]];
    try discriminate.
  inversion Hp; subst. exists sl. split; auto.
Qed.

Lemma create_translation_slug_witness :
  exists self_language,
    language Scenario.db_fresh Scenario.home = Some self_language /\
    Page.slug Scenario.home_fr_created =
      if String.eqb (Page.slug Scenario.home) (Language.code self_language)
      then Language.code Scenario.fr
      else (Page.slug Scenario.home ++ "-" ++ Language.code Scenario.fr)%string.
Proof.
  apply (create_translation_slug Scenario.home Scenario.fr true None
           Scenario.db_fresh Scenario.home_fr_created).
  reflexivity.
Defined.

(** Both branches of the slug rule, evaluated. *)
Example translation_slug_examples :
  translation_slug Scenario.home Scenario.en Scenario.nl = "home-nl"%string /\
  translation_slug (Scenario.page 2 [1; 1]%nat "en" None 1) Scenario.en Scenario.nl
    = "nl"%string.
Proof. split; reflexivity. Qed.

(** C10. The page [create_translation] returns is not live, whether the
    source is live or not and whether the fields are copied or not; it is
    the row that was saved. *)
Theorem create_translation_unpublished
    (self : Page.t) (lang : Language.t) (copy_fields : bool)
    (parent : option Page.t) (db : DB) (new_page : Page.t) :
  fst (create_translation self lang copy_fields parent db) = Ok new_page ->
  Page.live new_page = false /\
  In new_page (pages (snd (create_translation self lang copy_fields parent db))).
Proof.
  destruct (create_translation self lang copy_fields parent db) as [r db'] eqn:Hrun.
  simpl. intros ->.
  apply create_translation_inv in Hrun.
  destruct Hrun as [(_ & ? & _) | [(_ & [?|?] & _) | (_ & p & sl & Hp & _ & _ & _ & Hlive & _ & ->)]];
    try discriminate.
  inversion Hp; subst. split; auto.
  simpl. apply in_or_app. right. left. reflexivity.
Qed.

Lemma create_translation_unpublished_witness :
  Page.live Scenario.home = true /\
  Page.live Scenario.home_fr_created = false /\
  In Scenario.home_fr_created
     (pages (snd (create_translation Scenario.home Scenario.fr true None
                    Scenario.db_fresh))).
Proof.
  split; [reflexivity|].
  apply (create_translation_unpublished Scenario.home Scenario.fr true None
           Scenario.db_fresh Scenario.home_fr_created).
  reflexivity.
Defined.

(** ** No chained translations *)

Lemma next_pk_fresh db p : In p (pages db) -> Page.pk p < next_pk db.
Proof.
  unfold next_pk. induction (pages db) as [|q l IH]; cbn [fold_right In]; [tauto|].
  intros [Hq | H]; [subst q | specialize (IH H)]; lia.
Qed.

Lemma refers_to_page_lt db k :
  refers_to_page db (Some k) = true -> k < next_pk db.
Proof.
  simpl. rewrite existsb_exists. intros (p & Hp & Hk).
  apply Z.eqb_eq in Hk. subst. apply next_pk_fresh; auto.
Qed.

Lemma no_chained_translations_spec db :
  no_chained_translations db = true <->
  forall i j c, In i (items db) -> Item.canonical_page i = Some c ->
                In j (items db) -> Item.page j = Some c ->
                Item.canonical_page j = None.
Proof.
  unfold no_chained_translations. rewrite forallb_forall. split.
  - intros H i j c Hi Hc Hj Hp. specialize (H i Hi). rewrite Hc in H.
    rewrite forallb_forall in H. specialize (H j Hj).
    rewrite Hp in H. unfold fk_is in H. simpl in H. rewrite Z.eqb_refl in H.
    simpl in H. destruct (Item.canonical_page j); [discriminate | reflexivity].
  - intros H i Hi. destruct (Item.canonical_page i) as [c|] eqn:Hc; auto.
    apply forallb_forall. intros j Hj.
    destruct (fk_is (Item.page j) c) eqn:Hp; auto.
    apply fk_is_eq in Hp. rewrite (H i j c Hi Hc Hj Hp). reflexivity.
Qed.

Lemma source_is_canonical_spec db self :
  source_is_canonical db self = true <->
  forall j, In j (items db) -> Item.page j = Some (Page.pk self) ->
            Item.canonical_page j = None.
Proof.
  unfold source_is_canonical. rewrite forallb_forall. split.
  - intros H j Hj Hp. specialize (H j Hj). rewrite Hp in H.
    unfold fk_is in H. simpl in H. rewrite Z.eqb_refl in H. simpl in H.
    destruct (Item.canonical_page j); [discriminate | reflexivity].
  - intros H j Hj. destruct (fk_is (Item.page j) (Page.pk self)) eqn:Hp; auto.
    apply fk_is_eq in Hp. rewrite (H j Hj Hp). reflexivity.
Qed.

Lemma language_Some_item db self l :
  language db self = Some l ->
  exists i, In i (items db) /\ Item.page i = Some (Page.pk self).
Proof.
  unfold language, translatable_page_item, TranslatablePageItem_objects, first.
  destruct (filter _ (items db)) as [|i q] eqn:Hq; simpl; [discriminate|].
  intros _. exists i.
  assert (Hi : In i (i :: q)) by (left; reflexivity).
  rewrite <- Hq in Hi. apply filter_In in Hi. destruct Hi as [Hi Hf].
  apply fk_is_eq in Hf. auto.
Qed.

(** C9, as the code has it. [create_translation] keeps the registry free
    of chained translations when it is called on a canonical source: a page
    whose own [TranslatablePageItem] names no canonical page (and the
    foreign keys of the registry point to existing pages). *)
Theorem create_translation_preserves_no_chain
    (self : Page.t) (lang : Language.t) (copy_fields : bool)
    (parent : option Page.t) (db : DB) :
  no_chained_translations db = true ->
  fk_integrity db = true ->
  source_is_canonical db self = true ->
  no_chained_translations
    (snd (create_translation self lang copy_fields parent db)) = true.
Proof.
  intros Hinv Hfk Hsrc.
  destruct (create_translation self lang copy_fields parent db) as [r db'] eqn:Hrun.
  simpl. apply create_translation_inv in Hrun.
  destruct Hrun as [(_ & _ & ->) | [(_ & _ & ->) | (_ & p & sl & _ & Hl & Hpk & _ & _ & _ & ->)]];
    auto.
  apply no_chained_translations_spec.
  rewrite no_chained_translations_spec in Hinv.
  rewrite source_is_canonical_spec in Hsrc.
  unfold fk_integrity in Hfk. rewrite forallb_forall in Hfk.
  assert (Hself : Page.pk self < next_pk db).
  { destruct (language_Some_item _ _ _ Hl) as (i & Hi & Hp).
    specialize (Hfk i Hi). apply andb_true_iff in Hfk. destruct Hfk as [Hfk _].
    rewrite Hp in Hfk. apply refers_to_page_lt in Hfk. exact Hfk. }
  simpl. intros i j c Hi Hc Hj Hp.
  apply in_app_or in Hi. apply in_app_or in Hj.
  destruct Hi as [Hi | [<- | []]]; destruct Hj as [Hj | [<- | []]]; simpl in *.
  - exact (Hinv i j c Hi Hc Hj Hp).
  - exfalso. specialize (Hfk i Hi). apply andb_true_iff in Hfk.
    destruct Hfk as [_ Hfk]. rewrite Hc in Hfk. apply refers_to_page_lt in Hfk.
    inversion Hp. lia.
  - inversion Hc; subst. apply Hsrc; auto.
  - exfalso. inversion Hc; inversion Hp. lia.
Qed.

Lemma create_translation_preserves_no_chain_witness :
  no_chained_translations Scenario.db = true /\
  fst (create_translation Scenario.about Scenario.de true None Scenario.db)
    = Ok (Page.mk 11 [1; 1; 3]%nat true "about" "about-de" false "body" None 1) /\
  no_chained_translations
    (snd (create_translation Scenario.about Scenario.de true None Scenario.db))
    = true.
Proof.
  split; [reflexivity|]. split; [reflexivity|].
  apply (create_translation_preserves_no_chain Scenario.about Scenario.de true None
           Scenario.db); reflexivity.
Defined.

(** C9, as the spec has it, fails: nothing in [create_translation] asks
    that the source be canonical. Translating the French about page (itself
    the translation of the English one) into German registers an item whose
    canonical page is a translation. *)
Lemma create_translation_chains_translations :
  no_chained_translations Scenario.db = true /\
  fst (create_translation Scenario.about_fr Scenario.de true None Scenario.db)
    = Ok (Page.mk 11 [1; 2; 3]%nat true "about-fr" "about-fr-de" false "body"
                  (Some 5) 2) /\
  items (snd (create_translation Scenario.about_fr Scenario.de true None Scenario.db))
    = items Scenario.db ++ [Item.mk (Some 11) (Some 6) 4] /\
  In (Item.mk (Some 6) (Some 5) 2) (items Scenario.db) /\
  no_chained_translations
    (snd (create_translation Scenario.about_fr Scenario.de true None Scenario.db))
    = false.
Proof.
  repeat split; try reflexivity.
  simpl. do 4 right. left. reflexivity.
Qed.

Lemma create_translation_conflict_witness :
  create_translation Scenario.about Scenario.fr true None Scenario.db
  = (Err TranslationAlreadyExists, Scenario.db).
Proof.
  apply (create_translation_conflict_iff Scenario.about Scenario.fr true None
           Scenario.db).
  reflexivity.
Defined.

(** ** serve *)

Lemma serve_redirects cfg db self request i k :
  serve_candidates db self (get_user_language cfg db request) = [i] ->
  Item.page i = Some k ->
  serve cfg db self request = Ok (Redirect k).
Proof. unfold serve. intros -> Hk. simpl. rewrite Hk. reflexivity. Qed.

Lemma serve_without_candidate cfg db self request :
  serve_candidates db self (get_user_language cfg db request) = [] ->
  serve cfg db self request = Err (DoesNotExist MTranslatablePageItem).
Proof. unfold serve. intros ->. reflexivity. Qed.

Lemma serve_never_404 cfg db self request :
  serve cfg db self request <> Err Http404.
Proof.
  unfold serve.
  destruct (serve_candidates _ _ _) as [|i [|j q]]; simpl; try discriminate.
  destruct (Item.page i); discriminate.
Qed.

(** C2. A request for Spanish, a live language with no page under the
    site root: no child of the root has a matching item, and [serve] ends
    with the [DoesNotExist] of [TranslatablePageItem], which its handler
    for [TranslatablePage.DoesNotExist] does not catch; the result is not
    [Http404]. A request for French is redirected to the French home. *)
Theorem serve_missing_language_is_not_404 :
  get_user_language Scenario.global_sync Scenario.db
    (mkRequest (Some "es"%string) (Some Scenario.site)) = Some Scenario.es /\
  serve_candidates Scenario.db Scenario.site_root (Some Scenario.es) = [] /\
  serve Scenario.global_sync Scenario.db Scenario.site_root
        (mkRequest (Some "es"%string) (Some Scenario.site))
    = Err (DoesNotExist MTranslatablePageItem) /\
  serve Scenario.global_sync Scenario.db Scenario.site_root
        (mkRequest (Some "fr"%string) (Some Scenario.site))
    = Ok (Redirect 3).
Proof. repeat split; reflexivity. Qed.

(** ** synchronize_trees *)







(** ** synchronize_deletions *)

Lemma startswith_refl p : startswith p p = true.
Proof. induction p as [|a p IH]; simpl; auto. rewrite Nat.eqb_refl. auto. Qed.

Lemma in_deleted_self rows p : In p rows -> in_deleted rows p = true.
Proof.
  intros H. unfold in_deleted. apply existsb_exists.
  exists p. split; auto. apply startswith_refl.
Qed.

Lemma set_null_columns db rows p :
  Page.pk (set_null db rows p) = Page.pk p /\
  Page.translatable (set_null db rows p) = Page.translatable p /\
  (Page.canonical_page_id (set_null db rows p) = None \/
   Page.canonical_page_id (set_null db rows p) = Page.canonical_page_id p).
Proof. unfold set_null. destruct (pk_deleted _ _ _); simpl; auto. Qed.

Lemma synchronize_deletions_run cfg instance db :
  synchronize_deletions cfg instance db =
  if SYNC_TREE cfg && tracked db instance
  then delete_pages (translations_of db instance) db
  else (Ok tt, db).
Proof.
  unfold synchronize_deletions, tracked, translations_of, bindM, query, first.
  destruct (filter _ (TranslatablePage_objects db)) as [|page q] eqn:Hq; simpl.
  - rewrite andb_false_r. reflexivity.
  - rewrite andb_true_r.
    assert (Hpk : Page.pk page = Page.pk instance).
    { assert (Hin : In page (page :: q)) by (left; reflexivity).
      rewrite <- Hq in Hin. apply filter_In in Hin.
      apply Z.eqb_eq. tauto. }
    rewrite Hpk. destruct (SYNC_TREE cfg); reflexivity.
Qed.

Lemma in_deleted_set_null db rows rows' p :
  in_deleted rows' (set_null db rows p) = in_deleted rows' p.
Proof. unfold set_null. destruct (pk_deleted _ _ _); reflexivity. Qed.

(** What the hook does when no registry item stands in the way. With
    tree-sync disabled, or for a page that is not a tracked translatable
    page, the hook leaves the database as it is. With tree-sync enabled
    and a tracked page, the hook asks to delete every translatable page
    whose [canonical_page] is that page. Unless a [TranslatablePageItem]
    protects one of them (or a descendant) through its [page] key, the
    delete goes through: each of these rows is gone, no page is left at
    or under the place of one of them, no translatable page names the
    instance any more, and every other page is still there. When an item
    protects one, the hook raises [ProtectedError] and deletes nothing. *)
Lemma synchronize_deletions_deletes_unprotected_translations
    (cfg : Settings) (instance : Page.t) (db : DB) :
  (SYNC_TREE cfg && tracked db instance = false ->
   synchronize_deletions cfg instance db = (Ok tt, db)) /\
  (SYNC_TREE cfg && tracked db instance = true ->
   protected db (translations_of db instance) = false ->
   fst (synchronize_deletions cfg instance db) = Ok tt /\
   (forall p, In p (translations_of db instance) ->
              ~ In p (pages (snd (synchronize_deletions cfg instance db)))) /\
   (forall q, In q (pages (snd (synchronize_deletions cfg instance db))) ->
              in_deleted (translations_of db instance) q = false) /\
   (forall p, In p (pages db) ->
              in_deleted (translations_of db instance) p = false ->
              In (set_null db (translations_of db instance) p)
                 (pages (snd (synchronize_deletions cfg instance db)))) /\
   (forall p, In p (pages (snd (synchronize_deletions cfg instance db))) ->
              Page.translatable p = true ->
              Page.canonical_page_id p <> Some (Page.pk instance))) /\
  (SYNC_TREE cfg && tracked db instance = true ->
   protected db (translations_of db instance) = true ->
   synchronize_deletions cfg instance db = (Err ProtectedError, db)).
Proof.
  rewrite synchronize_deletions_run. split; [|split].
  - intros ->. reflexivity.
  - intros -> Hprot. unfold delete_pages.
    fold (protected db (translations_of db instance)).
    rewrite Hprot. cbn [fst snd pages].
    set (rows := translations_of db instance).
    assert (Hleft : forall q,
              In q (map (set_null db rows)
                        (filter (fun p => negb (in_deleted rows p)) (pages db))) ->
              in_deleted rows q = false).
    { intros q Hq. apply in_map_iff in Hq. destruct Hq as (p0 & <- & Hp0).
      apply filter_In in Hp0. destruct Hp0 as [_ Hdel].
      rewrite in_deleted_set_null. apply negb_true_iff. exact Hdel. }
    split; auto. split; [|split; [|split]].
    + intros p Hp Hin. apply Hleft in Hin.
      rewrite (in_deleted_self _ _ Hp) in Hin. discriminate.
    + exact Hleft.
    + intros p Hp Hdel. apply in_map. apply filter_In. split; auto.
      rewrite Hdel. reflexivity.
    + intros p Hp Htr Hc.
      apply in_map_iff in Hp. destruct Hp as (p0 & <- & Hp0).
      apply filter_In in Hp0. destruct Hp0 as [Hp0 Hdel].
      destruct (set_null_columns db rows p0) as (_ & Htr0 & Hcol).
      rewrite Htr0 in Htr.
      destruct Hcol as [Hcol | Hcol]; rewrite Hcol in Hc; [discriminate|].
      assert (Hrow : In p0 rows).
      { unfold rows, translations_of, TranslatablePage_objects, Page_objects.
        rewrite !filter_In, In_order_by, fk_is_eq. auto. }
      rewrite (in_deleted_self _ _ Hrow) in Hdel. discriminate.
  - intros -> Hprot. unfold delete_pages.
    fold (protected db (translations_of db instance)).
    rewrite Hprot. reflexivity.
Qed.

(** The hook on a database whose translations have no registry item: the
    French and Dutch home pages are deleted. *)
Example synchronize_deletions_on_unprotected_rows :
  translations_of Scenario.db_columns Scenario.home
    = [Scenario.home_fr; Scenario.home_nl] /\
  synchronize_deletions Scenario.global_no_sync Scenario.home Scenario.db_columns
    = (Ok tt, Scenario.db_columns) /\
  fst (synchronize_deletions Scenario.global_sync Scenario.home Scenario.db_columns)
    = Ok tt /\
  pages (snd (synchronize_deletions Scenario.global_sync Scenario.home
                Scenario.db_columns))
    = [Scenario.site_root; Scenario.home].
Proof. repeat split; reflexivity. Qed.


(** ** move *)

Lemma same_rows_refl db : same_rows db db.
Proof. unfold same_rows. auto. Qed.

Lemma same_rows_trans a b c : same_rows a b -> same_rows b c -> same_rows a c.
Proof. unfold same_rows. intuition congruence. Qed.

Lemma same_rows_host_move self target pos db :
  same_rows db (host_move self target pos db).
Proof.
  unfold same_rows, host_move. simpl. repeat split.
  rewrite map_map. apply map_ext. intros p. reflexivity.
Qed.

Lemma same_rows_moved self target pos db :
  same_rows db (moved self target pos db).
Proof. apply (same_rows_host_move self target pos db). Qed.


Lemma filter_filter_and {A} (f g : A -> bool) l :
  filter f (filter g l) = filter (fun x => g x && f x) l.
Proof.
  induction l as [|x l IH]; simpl; auto.
  destruct (g x); simpl; [destruct (f x)|]; rewrite IH; reflexivity.
Qed.

Lemma filter_map_length {A B} (f : A -> B) (h : B -> bool) l :
  List.length (filter (fun x => h (f x)) l) = List.length (filter h (map f l)).
Proof.
  induction l as [|x l IH]; simpl; auto.
  destruct (h (f x)); simpl; congruence.
Qed.

Lemma filter_columns_length (h : Page.t -> bool) (l1 l2 : list Page.t) :
  (forall x, h x = h (columns x)) ->
  map columns l1 = map columns l2 ->
  List.length (filter h l1) = List.length (filter h l2).
Proof.
  intros Hh Hmap.
  rewrite (filter_ext _ _ Hh l1), (filter_ext _ _ Hh l2).
  rewrite (filter_map_length columns h l1), (filter_map_length columns h l2).
  rewrite Hmap. reflexivity.
Qed.

(** The number of candidates for a translation does not depend on where
    the pages are in the tree. *)
Lemma sync_target_candidates_length a b page ct :
  same_rows a b ->
  List.length (sync_target_candidates a page ct)
  = List.length (sync_target_candidates b page ct).
Proof.
  intros (_ & _ & Hp). unfold sync_target_candidates.
  unfold TranslatablePage_objects, Page_objects.
  rewrite !filter_filter_and, !filter_order_by_length.
  apply filter_columns_length; auto.
Qed.

Lemma sync_target_candidates_ext a b page ct :
  pages a = pages b ->
  sync_target_candidates a page ct = sync_target_candidates b page ct.
Proof.
  intros H. unfold sync_target_candidates, TranslatablePage_objects, Page_objects.
  rewrite H. reflexivity.
Qed.

Lemma for_site_inv site db r db' :
  for_site site db = (r, db') ->
  pages db' = pages db /\ items db' = items db /\ languages db' = languages db /\
  moves db' = moves db.
Proof.
  unfold for_site. destruct site as [s|].
  - destruct (first _); intros H; inversion H; subst; simpl; auto.
  - intros H; inversion H; subst; auto.
Qed.

Lemma move_is_default_inv cfg self db r db' :
  move_is_default cfg self db = (r, db') ->
  pages db' = pages db /\ items db' = items db /\ languages db' = languages db /\
  moves db' = moves db.
Proof.
  unfold move_is_default, bindM, query, query_or_raise.
  destruct (LANGUAGES_PER_SITE cfg).
  - destruct (for_site (get_site db self) db) as [rs dbs] eqn:Hs.
    apply for_site_inv in Hs.
    destruct rs; intros H; inversion H; subst; auto.
  - intros H; inversion H; subst; auto.
Qed.

Lemma move_is_default_global cfg self db l :
  LANGUAGES_PER_SITE cfg = false ->
  language db self = Some l ->
  move_is_default cfg self db = (Ok (Language.is_default l), db).
Proof.
  intros Hm Hl. unfold move_is_default, query_or_raise. rewrite Hm, Hl. reflexivity.
Qed.

Lemma resolve_canonical_target_ext a b target :
  pages a = pages b ->
  resolve_canonical_target a target = resolve_canonical_target b target.
Proof.
  intros H. unfold resolve_canonical_target, TranslatablePage_objects, Page_objects.
  rewrite H. reflexivity.
Qed.

Lemma get_translations_ext a b self only_live include_self :
  pages a = pages b -> languages a = languages b ->
  get_translations a self only_live include_self
  = get_translations b self only_live include_self.
Proof.
  intros Hp Hl.
  unfold get_translations, language__live, Language_by_pk, Language_objects,
    TranslatablePage_objects, Page_objects.
  rewrite Hp, Hl. reflexivity.
Qed.

(** One pass of the loop: [.get()] raises unless exactly one page matches,
    and with one match the move of the translation raises [TypeError].
    Nothing is written. *)
Lemma propagate_step_run ct pos page db :
  propagate_step ct pos page db =
  (match sync_target_candidates db page ct with
   | [] => Err (DoesNotExist MTranslatablePage)
   | [_] => Err TypeError
   | _ :: _ :: _ => Err (MultipleObjectsReturned MTranslatablePage)
   end, db).
Proof.
  unfold propagate_step, Page_move_suppress_sync, bindM, query_or_raise, raise.
  destruct (sync_target_candidates db page ct) as [|t [|t' q]]; reflexivity.
Qed.

(** The loop ends in its first pass. *)
Lemma propagate_loop_run ct pos (translations : list Page.t) db :
  for_each (propagate_step ct pos) translations db =
  match translations with
  | [] => (Ok tt, db)
  | page :: _ => propagate_step ct pos page db
  end.
Proof.
  destruct translations as [|page rest]; [reflexivity|].
  cbn [for_each]. unfold bindM at 1. rewrite propagate_step_run.
  destruct (sync_target_candidates db page ct) as [|t [|t' q]]; reflexivity.
Qed.

(** What is left of [move] once [self] is moved and the language of
    [self] is read. *)
Lemma move_run cfg self target pos suppress_sync db :
  move cfg self target pos suppress_sync db =
  match move_is_default cfg self
          (log_move (MoveCall.mk (Page.pk self) (Page.pk target) pos suppress_sync)
                    (host_move self target pos db)) with
  | (Ok is_default, db2) =>
      if negb suppress_sync && SYNC_TREE cfg && is_default
      then
        match resolve_canonical_target db2 target with
        | Ok ct =>
            for_each (propagate_step ct pos)
                     (get_translations db2 self false false) db2
        | Err e => (Err e, db2)
        end
      else (Ok tt, db2)
  | (Err e, db2) => (Err e, db2)
  end.
Proof.
  unfold move, bindM, modify. cbv beta.
  destruct (move_is_default cfg self _) as [[b|e] db2]; [|reflexivity].
  destruct (negb suppress_sync && SYNC_TREE cfg && b); [|reflexivity].
  unfold move_translated_pages, bindM, query, query_or_raise. cbv beta.
  destruct (resolve_canonical_target db2 target); reflexivity.
Qed.

(** Every way [move] can end: only [self] was moved, and only its call
    is logged. *)
Lemma move_inv cfg self target pos suppress_sync db r db' :
  move cfg self target pos suppress_sync db = (r, db') ->
  pages db' = pages (host_move self target pos db) /\
  items db' = items db /\ languages db' = languages db /\
  moves db' = moves db
              ++ [MoveCall.mk (Page.pk self) (Page.pk target) pos suppress_sync].
Proof.
  rewrite move_run.
  destruct (move_is_default cfg self _) as [rd db2] eqn:Hd.
  apply move_is_default_inv in Hd. destruct Hd as (Hp & Hi & Hl & Hm).
  cbn [log_move host_move pages items languages moves] in Hp, Hi, Hl, Hm.
  assert (Hstop : forall r0, (r0, db2) = (r, db') ->
            pages db' = pages (host_move self target pos db) /\
            items db' = items db /\ languages db' = languages db /\
            moves db' = moves db
              ++ [MoveCall.mk (Page.pk self) (Page.pk target) pos suppress_sync]).
  { intros r0 H; inversion H; subst. auto. }
  destruct rd as [b|e]; [|apply Hstop].
  destruct (negb suppress_sync && SYNC_TREE cfg && b); [|apply Hstop].
  destruct (resolve_canonical_target db2 target) as [ct|e]; [|apply Hstop].
  rewrite propagate_loop_run.
  destruct (get_translations db2 self false false) as [|page rest]; [apply Hstop|].
  rewrite propagate_step_run. apply Hstop.
Qed.

(** When the propagation is reached and the first translation of [self]
    has its one page to go under, [move] raises [TypeError]: [self] is
    moved and no translation is. *)
Lemma move_propagation_raises cfg self target pos db ct page rest :
  SYNC_TREE cfg = true ->
  fst (move_is_default cfg self (moved self target pos db)) = Ok true ->
  resolve_canonical_target (moved self target pos db) target = Ok ct ->
  get_translations (moved self target pos db) self false false = page :: rest ->
  List.length (sync_target_candidates db page ct) = 1%nat ->
  fst (move cfg self target pos false db) = Err TypeError /\
  pages (snd (move cfg self target pos false db))
    = pages (host_move self target pos db) /\
  moves (snd (move cfg self target pos false db))
    = moves db ++ [own_call self target pos].
Proof.
  intros Hsync Hdef Hct Htr Hone.
  destruct (move cfg self target pos false db) as [r db'] eqn:Hmove.
  pose proof (move_inv _ _ _ _ _ _ _ _ Hmove) as (Hp & _ & _ & Hm).
  cbn [fst snd]. split; [|split; auto].
  rewrite move_run in Hmove.
  change (log_move _ (host_move self target pos db))
    with (moved self target pos db) in Hmove.
  destruct (move_is_default cfg self (moved self target pos db)) as [rd db2] eqn:Hd.
  cbn [fst] in Hdef. subst rd.
  apply move_is_default_inv in Hd. destruct Hd as (Hp2 & Hi2 & Hl2 & _).
  rewrite Hsync in Hmove. cbn [negb andb] in Hmove.
  rewrite (resolve_canonical_target_ext db2 _ target Hp2), Hct in Hmove.
  rewrite (get_translations_ext db2 _ self false false Hp2 Hl2), Htr in Hmove.
  rewrite propagate_loop_run, propagate_step_run in Hmove.
  assert (Hlen : List.length (sync_target_candidates db2 page ct) = 1%nat).
  { rewrite <- Hone. symmetry. apply sync_target_candidates_length.
    apply same_rows_trans with (moved self target pos db).
    - apply same_rows_moved.
    - unfold same_rows. rewrite Hp2, Hi2, Hl2. auto. }
  destruct (sync_target_candidates db2 page ct) as [|t [|t' q]];
    try discriminate.
  inversion Hmove. reflexivity.
Qed.

(** C1. Moving the English about page next to the team page (tree-sync
    enabled, [suppress_sync] not set, English the default language): the
    about page has two translations, and the French one has its one page
    to go under, the French team page. The call
    [page.move(target=target, pos=pos, suppress_sync=True)] is then made on
    a row of [TranslatablePage.objects], whose [move] is the host's and
    takes no [suppress_sync]: [move] raises [TypeError]. The about page
    itself has been moved; its translations are where they were. *)
Theorem move_raises_type_error_at_first_translation :
  get_translations (moved Scenario.about Scenario.team None Scenario.db)
                   Scenario.about false false
    = [Scenario.about_fr; Scenario.about_nl] /\
  sync_target_candidates Scenario.db Scenario.about_fr Scenario.team
    = [Scenario.team_fr] /\
  fst (move Scenario.global_sync Scenario.about Scenario.team None false
         Scenario.db) = Err TypeError /\
  moves (snd (move Scenario.global_sync Scenario.about Scenario.team None false
                Scenario.db))
    = [MoveCall.mk 5 8 None false] /\
  map (fun p => (Page.pk p, Page.path p))
      (pages (snd (move Scenario.global_sync Scenario.about Scenario.team None
                     false Scenario.db)))
    = [(1, [1]%nat); (2, [1; 1]%nat); (3, [1; 2]%nat); (4, [1; 3]%nat);
       (5, [1; 1; 3]%nat); (6, [1; 2; 1]%nat); (7, [1; 3; 1]%nat);
       (8, [1; 1; 2]%nat); (9, [1; 2; 2]%nat); (10, [1; 3; 2]%nat)].
Proof. repeat split; reflexivity. Qed.



(** * Further properties *)

(** ** create_translation and the registry *)

Lemma has_translation_create_item db i q l :
  has_translation (create_item i db) q l
  = has_translation db q l
    || (fk_is (Item.canonical_page i) (Page.pk q) && (Item.language i =? Language.pk l)).
Proof.
  unfold has_translation, TranslatablePageItem_objects, create_item. cbn [items].
  rewrite filter_app. cbn [filter].
  destruct (filter _ (items db)); cbn [app exists_].
  - destruct (_ && _); reflexivity.
  - reflexivity.
Qed.

Lemma has_translation_save_page db p q l :
  has_translation (save_page p db) q l = has_translation db q l.
Proof. reflexivity. Qed.

(** After a successful [create_translation] the registry answers
    [has_translation] for that page and language, which it did not
    before. *)
Theorem create_translation_then_has_translation
    (self : Page.t) (lang : Language.t) (copy_fields : bool)
    (parent : option Page.t) (db db' : DB) (new_page : Page.t) :
  create_translation self lang copy_fields parent db = (Ok new_page, db') ->
  has_translation db self lang = false /\
  has_translation db' self lang = true.
Proof.
  intros H. apply create_translation_ok in H.
  destruct H as (pr & sl & _ & _ & Hhas & -> & _). split; auto.
  rewrite has_translation_create_item, has_translation_save_page.
  cbn [Item.canonical_page Item.language]. unfold fk_is. cbn [opt_eqb].
  rewrite !Z.eqb_refl. apply orb_true_r.
Qed.

Lemma create_translation_then_has_translation_witness :
  has_translation Scenario.db_fresh Scenario.home Scenario.fr = false /\
  has_translation
    (snd (create_translation Scenario.home Scenario.fr true None Scenario.db_fresh))
    Scenario.home Scenario.fr = true.
Proof.
  apply (create_translation_then_has_translation Scenario.home Scenario.fr true
           None Scenario.db_fresh _ Scenario.home_fr_created).
  reflexivity.
Defined.

(** [create_translation] is not idempotent: called again for the same page
    and language, with any options, it raises "Translation already exists"
    and writes nothing. *)
Theorem create_translation_twice_conflicts
    (self : Page.t) (lang : Language.t) (copy_fields copy_fields' : bool)
    (parent parent' : option Page.t) (db db' : DB) (new_page : Page.t) :
  create_translation self lang copy_fields parent db = (Ok new_page, db') ->
  create_translation self lang copy_fields' parent' db'
  = (Err TranslationAlreadyExists, db').
Proof.
  intros H. apply create_translation_ok in H.
  destruct H as (pr & sl & _ & _ & _ & -> & _).
  unfold create_translation, bindM, query, raise.
  rewrite has_translation_create_item, has_translation_save_page.
  cbn [Item.canonical_page Item.language]. unfold fk_is. cbn [opt_eqb].
  rewrite !Z.eqb_refl, orb_true_r. reflexivity.
Qed.

Lemma create_translation_twice_conflicts_witness :
  create_translation Scenario.home Scenario.fr false (Some Scenario.site_root)
    (snd (create_translation Scenario.home Scenario.fr true None Scenario.db_fresh))
  = (Err TranslationAlreadyExists,
     snd (create_translation Scenario.home Scenario.fr true None Scenario.db_fresh)).
Proof.
  apply (create_translation_twice_conflicts Scenario.home Scenario.fr true false
           None (Some Scenario.site_root) Scenario.db_fresh _
           Scenario.home_fr_created).
  reflexivity.
Defined.

(** A successful [create_translation] changes the answer of
    [has_translation] for no other page or language. *)
Theorem create_translation_keeps_other_translations
    (self : Page.t) (lang : Language.t) (copy_fields : bool)
    (parent : option Page.t) (db db' : DB) (new_page : Page.t)
    (q : Page.t) (l : Language.t) :
  create_translation self lang copy_fields parent db = (Ok new_page, db') ->
  Page.pk q <> Page.pk self \/ Language.pk l <> Language.pk lang ->
  has_translation db' q l = has_translation db q l.
Proof.
  intros H Hne. apply create_translation_ok in H.
  destruct H as (pr & sl & _ & _ & _ & -> & _).
  rewrite has_translation_create_item, has_translation_save_page.
  cbn [Item.canonical_page Item.language]. unfold fk_is. cbn [opt_eqb].
  destruct Hne as [Hne | Hne].
  - apply not_eq_sym in Hne. apply Z.eqb_neq in Hne. rewrite Hne.
    apply orb_false_r.
  - apply not_eq_sym in Hne. apply Z.eqb_neq in Hne. rewrite Hne.
    rewrite andb_false_r. apply orb_false_r.
Qed.

Lemma create_translation_keeps_other_translations_witness :
  has_translation
    (snd (create_translation Scenario.home Scenario.fr true None Scenario.db_fresh))
    Scenario.home Scenario.nl
  = has_translation Scenario.db_fresh Scenario.home Scenario.nl.
Proof.
  apply (create_translation_keeps_other_translations Scenario.home Scenario.fr
           true None Scenario.db_fresh _ Scenario.home_fr_created).
  - reflexivity.
  - right. discriminate.
Defined.

Lemma first_filter_Some {A} (f : A -> bool) (l : list A) (x : A) :
  first (filter f l) = Some x -> In x l /\ f x = true.
Proof.
  unfold first. destruct (filter f l) as [|y q] eqn:Hq; simpl; [discriminate|].
  intros H; inversion H; subst.
  apply filter_In. rewrite Hq. left. reflexivity.
Qed.

Lemma first_filter_None {A} (f : A -> bool) (l : list A) :
  first (filter f l) = None -> forall x, In x l -> f x = false.
Proof.
  unfold first. destruct (filter f l) as [|y q] eqn:Hq; simpl; [|discriminate].
  intros _ x Hx. destruct (f x) eqn:Hf; auto.
  assert (Hin : In x (filter f l)) by (apply filter_In; auto).
  rewrite Hq in Hin. destruct Hin.
Qed.

Lemma exists_filter_false {A} (f : A -> bool) (l : list A) :
  exists_ (filter f l) = false <-> forall x, In x l -> f x = false.
Proof.
  split.
  - intros H. apply first_filter_None. unfold first.
    destruct (filter f l); [reflexivity | discriminate].
  - intros H. destruct (filter f l) as [|y q] eqn:Hq; auto.
    assert (Hin : In y (filter f l)) by (rewrite Hq; left; reflexivity).
    apply filter_In in Hin. destruct Hin as [Hin Hf].
    rewrite (H y Hin) in Hf. discriminate.
Qed.

Lemma get_site_Some db self s :
  get_site db self = Some s ->
  In s (sites db) /\
  exists r, root_page db s = Some r /\ startswith (Page.path self) (Page.path r) = true.
Proof.
  unfold get_site. intros H. apply first_filter_Some in H.
  destruct H as [Hin Hf]. apply In_order_by in Hin. split; auto.
  destruct (root_page db s) as [r|]; [|discriminate]. exists r. auto.
Qed.

Lemma get_translation_parent_inv (db : DB) (self : Page.t) (lang : Language.t) :
  match get_translation_parent db self lang with
  | Err e =>
      e = AttributeError /\
      (get_site db self = None \/
       exists s, get_site db self = Some s /\ root_page db s = None)
  | Ok (PPage r) =>
      exists s, get_site db self = Some s /\ root_page db s = Some r /\
                forall i, In i (items db) ->
                          page__path__startswith db i (Page.path r) = false
  | Ok (PItem i) =>
      exists s r, get_site db self = Some s /\ root_page db s = Some r /\
                  In i (items db) /\
                  page__path__startswith db i (Page.path r) = true /\
                  Item.canonical_page i = option_map Page.pk (get_parent db self) /\
                  Item.language i = Language.pk lang
  | Ok PNone =>
      exists s r, get_site db self = Some s /\ root_page db s = Some r /\
                  (exists i, In i (items db) /\
                             page__path__startswith db i (Page.path r) = true) /\
                  forall i, In i (items db) ->
                            page__path__startswith db i (Page.path r) = true ->
                            Item.language i = Language.pk lang ->
                            Item.canonical_page i
                              <> option_map Page.pk (get_parent db self)
  end.
Proof.
  unfold get_translation_parent, has_pages_in_site, bind,
    TranslatablePageItem_objects.
  destruct (get_site db self) as [s|] eqn:Hsite; [|split; auto].
  destruct (root_page db s) as [r|] eqn:Hroot; [|split; eauto].
  destruct (exists_ (filter _ (items db))) eqn:Hex; cbn [negb].
  - destruct (first _) as [i|] eqn:Hfirst.
    + apply first_filter_Some in Hfirst. destruct Hfirst as [Hin Hf].
      apply andb_true_iff in Hf. destruct Hf as [Hf Hl].
      apply andb_true_iff in Hf. destruct Hf as [Hp Hc].
      apply opt_eqb_eq in Hc. apply Z.eqb_eq in Hl.
      exists s, r. repeat split; auto.
    + exists s, r. repeat split; auto.
      * destruct (filter (fun i => page__path__startswith db i (Page.path r))
                         (items db)) as [|i q] eqn:Hq; [discriminate|].
        exists i.
        assert (Hin : In i (filter (fun i => page__path__startswith db i (Page.path r))
                                   (items db))) by (rewrite Hq; left; reflexivity).
        apply filter_In in Hin. exact Hin.
      * intros i Hin Hp Hl Hc.
        pose proof (first_filter_None _ _ Hfirst i Hin) as Hf.
        cbv beta in Hf. rewrite Hp, Hl, Hc, Z.eqb_refl in Hf.
        assert (Ht : forall o : option Z, opt_eqb o o = true).
        { intros o. apply opt_eqb_eq. reflexivity. }
        rewrite Ht in Hf. discriminate.
  - exists s. repeat split; auto.
    apply exists_filter_false. exact Hex.
Qed.

(** What [get_translation_parent] returns. Without a site it raises. When
    no registry item lies under the site's root page it returns that root
    page. Otherwise it returns the first registry item (an item, not a
    page) under the root whose canonical page is the parent of [self] and
    whose language is the one asked for, or nothing when there is none. *)
Theorem get_translation_parent_cases (db : DB) (self : Page.t) (lang : Language.t) :
  match get_translation_parent db self lang with
  | Err e =>
      e = AttributeError /\
      (get_site db self = None \/
       exists s, get_site db self = Some s /\ root_page db s = None)
  | Ok (PPage r) =>
      exists s, get_site db self = Some s /\ root_page db s = Some r /\
                forall i, In i (items db) ->
                          page__path__startswith db i (Page.path r) = false
  | Ok (PItem i) =>
      exists s r, get_site db self = Some s /\ root_page db s = Some r /\
                  In i (items db) /\
                  page__path__startswith db i (Page.path r) = true /\
                  Item.canonical_page i = option_map Page.pk (get_parent db self) /\
                  Item.language i = Language.pk lang
  | Ok PNone =>
      exists s r, get_site db self = Some s /\ root_page db s = Some r /\
                  (exists i, In i (items db) /\
                             page__path__startswith db i (Page.path r) = true) /\
                  forall i, In i (items db) ->
                            page__path__startswith db i (Page.path r) = true ->
                            Item.language i = Language.pk lang ->
                            Item.canonical_page i
                              <> option_map Page.pk (get_parent db self)
  end.
Proof. apply get_translation_parent_inv. Qed.

(** A successful [create_translation] adds exactly one page, under a
    primary key no page had, and exactly one registry item: the new page
    as the translation of [self] into the language. *)
Theorem create_translation_adds_one_page
    (self : Page.t) (lang : Language.t) (copy_fields : bool)
    (parent : option Page.t) (db db' : DB) (new_page : Page.t) :
  create_translation self lang copy_fields parent db = (Ok new_page, db') ->
  pages db' = pages db ++ [new_page] /\
  items db' = items db ++ [Item.mk (Some (Page.pk new_page)) (Some (Page.pk self))
                                   (Language.pk lang)] /\
  (forall q, In q (pages db) -> Page.pk q <> Page.pk new_page) /\
  languages db' = languages db /\ sites db' = sites db.
Proof.
  intros H. pose proof (create_translation_inv _ _ _ _ _ _ _ H) as Hinv.
  destruct Hinv as [(_ & ? & _) | [(_ & [?|?] & _)
                   | (_ & p & sl & Hp & _ & Hpk & _ & _ & _ & ->)]];
    try discriminate.
  inversion Hp; subst p. repeat split; auto.
  intros q Hq. apply next_pk_fresh in Hq. lia.
Qed.

Lemma create_translation_adds_one_page_witness :
  pages (snd (create_translation Scenario.home Scenario.fr true None
                Scenario.db_fresh))
    = pages Scenario.db_fresh ++ [Scenario.home_fr_created] /\
  items (snd (create_translation Scenario.home Scenario.fr true None
                Scenario.db_fresh))
    = items Scenario.db_fresh ++ [Item.mk (Some 3) (Some 2) 2] /\
  (forall q, In q (pages Scenario.db_fresh) ->
             Page.pk q <> Page.pk Scenario.home_fr_created) /\
  languages (snd (create_translation Scenario.home Scenario.fr true None
                    Scenario.db_fresh)) = languages Scenario.db_fresh /\
  sites (snd (create_translation Scenario.home Scenario.fr true None
                Scenario.db_fresh)) = sites Scenario.db_fresh.
Proof.
  apply (create_translation_adds_one_page Scenario.home Scenario.fr true None
           Scenario.db_fresh _ Scenario.home_fr_created).
  reflexivity.
Defined.

(** What the new page takes from its source. The title is always the
    source's. With [copy_fields] the content and the [canonical_page] and
    [language] columns are the source's too; without, the content is empty,
    [canonical_page] is null and the [language] column is the default
    language. *)
Theorem create_translation_copies_fields
    (self : Page.t) (lang : Language.t) (copy_fields : bool)
    (parent : option Page.t) (db db' : DB) (new_page : Page.t) :
  create_translation self lang copy_fields parent db = (Ok new_page, db') ->
  Page.title new_page = Page.title self /\
  Page.translatable new_page = Page.translatable self /\
  if copy_fields
  then Page.content new_page = Page.content self /\
       Page.canonical_page_id new_page = Page.canonical_page_id self /\
       Page.language_id new_page = Page.language_id self
  else Page.content new_page = EmptyString /\
       Page.canonical_page_id new_page = None /\
       _language_default db = Some (Page.language_id new_page).
Proof.
  intros H. apply create_translation_ok in H.
  destruct H as (pr & sl & _ & _ & _ & _ & Hrow).
  destruct copy_fields.
  - destruct Hrow as (pp & ->). repeat split; reflexivity.
  - destruct Hrow as (r & dl & _ & Hd & ->). repeat split; auto.
Qed.

Lemma create_translation_copies_fields_witness :
  (Page.title Scenario.home_fr_created = Page.title Scenario.home /\
   Page.translatable Scenario.home_fr_created = Page.translatable Scenario.home /\
   Page.content Scenario.home_fr_created = Page.content Scenario.home /\
   Page.canonical_page_id Scenario.home_fr_created
     = Page.canonical_page_id Scenario.home /\
   Page.language_id Scenario.home_fr_created = Page.language_id Scenario.home) /\
  fst (create_translation Scenario.about Scenario.de false (Some Scenario.home_fr)
         Scenario.db)
    = Ok (Page.mk 11 [1; 2; 3]%nat true "about" "about-de" false "" None 1).
Proof.
  split; [|reflexivity].
  apply (create_translation_copies_fields Scenario.home Scenario.fr true None
           Scenario.db_fresh
           (snd (create_translation Scenario.home Scenario.fr true None
                   Scenario.db_fresh))
           Scenario.home_fr_created).
  reflexivity.
Defined.

Lemma filter_none {A} (f : A -> bool) (l : list A) :
  (forall x, In x l -> f x = false) -> filter f l = [].
Proof.
  induction l as [|x l IH]; intros H; cbn [filter]; auto.
  rewrite (H x (or_introl eq_refl)). apply IH. intros y Hy. apply H. right. auto.
Qed.

(** The new page can be looked up in the registry: when the keys of the
    registry point to existing pages, the item of the new page is the one
    [create_translation] created, naming [self] as its canonical page, and
    the language of the new page (the mixin's property) is the language
    with the primary key that was asked for. *)
Theorem create_translation_registers_new_page
    (self : Page.t) (lang : Language.t) (copy_fields : bool)
    (parent : option Page.t) (db db' : DB) (new_page : Page.t) :
  fk_integrity db = true ->
  create_translation self lang copy_fields parent db = (Ok new_page, db') ->
  translatable_page_item db' new_page
    = Some (Item.mk (Some (Page.pk new_page)) (Some (Page.pk self))
                    (Language.pk lang)) /\
  language db' new_page = Language_by_pk db (Language.pk lang).
Proof.
  intros Hfk H. pose proof (create_translation_inv _ _ _ _ _ _ _ H) as Hinv.
  destruct Hinv as [(_ & ? & _) | [(_ & [?|?] & _)
                   | (_ & p & sl & Hp & _ & Hpk & _ & _ & _ & ->)]];
    try discriminate.
  inversion Hp; subst p.
  assert (Hitem : translatable_page_item
            (create_item (Item.mk (Some (Page.pk new_page)) (Some (Page.pk self))
                                  (Language.pk lang))
                         (save_page new_page db)) new_page
          = Some (Item.mk (Some (Page.pk new_page)) (Some (Page.pk self))
                          (Language.pk lang))).
  { unfold translatable_page_item, TranslatablePageItem_objects, create_item.
    cbn [items save_page]. rewrite filter_app.
    rewrite filter_none.
    - cbn [filter app Item.page]. unfold fk_is. cbn [opt_eqb].
      rewrite Z.eqb_refl. reflexivity.
    - intros i Hi. unfold fk_integrity in Hfk. rewrite forallb_forall in Hfk.
      specialize (Hfk i Hi). apply andb_true_iff in Hfk. destruct Hfk as [Hfk _].
      destruct (Item.page i) as [k|] eqn:Hk; [|reflexivity].
      apply refers_to_page_lt in Hfk.
      unfold fk_is. cbn [opt_eqb]. apply Z.eqb_neq. lia. }
  split; auto.
  unfold language. rewrite Hitem. reflexivity.
Qed.

Lemma create_translation_registers_new_page_witness :
  translatable_page_item
    (snd (create_translation Scenario.home Scenario.fr true None Scenario.db_fresh))
    Scenario.home_fr_created
    = Some (Item.mk (Some 3) (Some 2) 2) /\
  language
    (snd (create_translation Scenario.home Scenario.fr true None Scenario.db_fresh))
    Scenario.home_fr_created
    = Some Scenario.fr.
Proof.
  apply (create_translation_registers_new_page Scenario.home Scenario.fr true None
           Scenario.db_fresh _ Scenario.home_fr_created);
    reflexivity.
Defined.

(** [create_translation] raises before it writes: whatever exception it
    ends with, the database is as it was. *)
Theorem create_translation_error_writes_nothing
    (self : Page.t) (lang : Language.t) (copy_fields : bool)
    (parent : option Page.t) (db : DB) (e : Error) :
  fst (create_translation self lang copy_fields parent db) = Err e ->
  snd (create_translation self lang copy_fields parent db) = db.
Proof.
  destruct (create_translation self lang copy_fields parent db) as [r db'] eqn:Hrun.
  cbn [fst snd]. intros ->.
  apply create_translation_inv in Hrun.
  destruct Hrun as [(_ & _ & ?) | [(_ & _ & ?) | (_ & p & sl & ? & _)]];
    auto; discriminate.
Qed.

Lemma create_translation_error_writes_nothing_witness :
  get_translation_parent Scenario.db_out_of_sync Scenario.team Scenario.nl
    = Ok (PItem (Item.mk (Some 4) (Some 2) 3)) /\
  fst (create_translation Scenario.team Scenario.nl true None
         Scenario.db_out_of_sync)
    = Err AttributeError /\
  snd (create_translation Scenario.team Scenario.nl true None
         Scenario.db_out_of_sync)
    = Scenario.db_out_of_sync.
Proof.
  split; [reflexivity|]. split; [reflexivity|].
  apply (create_translation_error_writes_nothing Scenario.team Scenario.nl
           true None Scenario.db_out_of_sync AttributeError).
  reflexivity.
Defined.

(** Without [copy_fields] and without an explicit parent,
    [create_translation] never returns a page for a page that is stored in
    the database: the language of [self] needs a registry item for [self],
    and with an item under the site root [get_translation_parent] yields a
    registry item or nothing, neither of which has [add_child]. The call
    ends with "Translation already exists" or [AttributeError] and writes
    nothing. *)
Theorem create_translation_without_copy_needs_parent
    (self : Page.t) (lang : Language.t) (db : DB) :
  Page_by_pk db (Page.pk self) = Some self ->
  (create_translation self lang false None db = (Err TranslationAlreadyExists, db)
   \/ create_translation self lang false None db = (Err AttributeError, db)).
Proof.
  intros Hstored.
  unfold create_translation, bindM, ret, raise, query, query_or_raise, modify.
  cbv beta.
  destruct (has_translation db self lang); [left; reflexivity|]. right.
  pose proof (get_translation_parent_inv db self lang) as Hcases.
  destruct (get_translation_parent db self lang) as [pr|e].
  2:{ destruct Hcases as [-> _]. reflexivity. }
  destruct (language db self) as [sl|] eqn:Hl; [|reflexivity].
  destruct pr as [|r|i]; try reflexivity.
  exfalso.
  destruct Hcases as (s & Hsite & Hroot & Hnone).
  destruct (language_Some_item _ _ _ Hl) as (i & Hi & Hp).
  destruct (get_site_Some _ _ _ Hsite) as (_ & r' & Hroot' & Hstart).
  rewrite Hroot in Hroot'. inversion Hroot'; subst r'.
  specialize (Hnone i Hi). unfold page__path__startswith in Hnone.
  rewrite Hp, Hstored, Hstart in Hnone. discriminate.
Qed.

Lemma create_translation_without_copy_needs_parent_witness :
  create_translation Scenario.home Scenario.fr false None Scenario.db_fresh
    = (Err AttributeError, Scenario.db_fresh) /\
  (create_translation Scenario.home Scenario.fr false None Scenario.db_fresh
     = (Err TranslationAlreadyExists, Scenario.db_fresh)
   \/ create_translation Scenario.home Scenario.fr false None Scenario.db_fresh
     = (Err AttributeError, Scenario.db_fresh)).
Proof.
  split; [reflexivity|].
  apply (create_translation_without_copy_needs_parent Scenario.home Scenario.fr
           Scenario.db_fresh).
  reflexivity.
Defined.

(** ** move *)

Lemma for_each_rel {A} (R : DB -> DB -> Prop) (body : A -> M unit) (l : list A) :
  (forall db, R db db) ->
  (forall a b c, R a b -> R b c -> R a c) ->
  (forall x db r db', In x l -> body x db = (r, db') -> R db db') ->
  forall db r db', for_each body l db = (r, db') -> R db db'.
Proof.
  intros Hrefl Htrans. induction l as [|x l IH]; intros Hbody db r db' H.
  - inversion H; subst. apply Hrefl.
  - cbn [for_each] in H. unfold bindM at 1 in H.
    destruct (body x db) as [r1 db1] eqn:Hx.
    assert (H1 : R db db1) by (eapply Hbody; eauto; left; reflexivity).
    destruct r1 as [u|e].
    + apply Htrans with db1; auto.
      eapply IH; eauto. intros y d r' d' Hy. apply Hbody. right. auto.
    + inversion H; subst. auto.
Qed.

(** [move] touches nothing but places in the tree: the registry, the
    languages and the columns of every page are what they were, however
    the move ends. *)
Theorem move_keeps_rows
    (cfg : Settings) (self target : Page.t) (pos : option string)
    (suppress_sync : bool) (db : DB) :
  items (snd (move cfg self target pos suppress_sync db)) = items db /\
  languages (snd (move cfg self target pos suppress_sync db)) = languages db /\
  map columns (pages (snd (move cfg self target pos suppress_sync db)))
    = map columns (pages db).
Proof.
  destruct (move cfg self target pos suppress_sync db) as [r db'] eqn:H.
  apply move_inv in H. destruct H as (Hp & Hi & Hl & _).
  cbn [snd]. repeat split; auto.
  rewrite Hp. symmetry. apply (same_rows_host_move self target pos db).
Qed.



(** Whatever its outcome, [move] moves no page besides [self]: the tree
    after the call is the tree after the host's move of [self], and the
    only call logged is that of [self]. The move of a translation raises
    [TypeError] before it moves anything, so the propagation never gets
    past its first pass. *)
Theorem move_only_moves_self
    (cfg : Settings) (self target : Page.t) (pos : option string)
    (suppress_sync : bool) (db : DB) :
  pages (snd (move cfg self target pos suppress_sync db))
    = pages (host_move self target pos db) /\
  moves (snd (move cfg self target pos suppress_sync db))
    = moves db
      ++ [MoveCall.mk (Page.pk self) (Page.pk target) pos suppress_sync].
Proof.
  destruct (move cfg self target pos suppress_sync db) as [r db'] eqn:H.
  apply move_inv in H. destruct H as (Hp & _ & _ & Hm).
  cbn [snd]. auto.
Qed.



(** ** get_translations and is_canonical *)

(** The canonical id of a page [get_translations] returns is the one of
    the page it was asked for, when the tree has no chained translation at
    that page. *)
Lemma canonical_id_of_member
    (db : DB) (self p : Page.t) (only_live include_self : bool) :
  canonical_id self <> 0 ->
  In p (get_translations db self only_live include_self) ->
  (Page.pk p = canonical_id self -> Page.canonical_page_id p = None) ->
  canonical_id p = canonical_id self.
Proof.
  intros Hnz Hin Hroot.
  apply get_translations_In in Hin.
  destruct Hin as (_ & _ & Hc & _). fold (canonical_id self) in Hc.
  unfold canonical_id at 1.
  destruct Hc as [Hc | Hc].
  - rewrite Hc. cbn [or_pk].
    destruct (canonical_id self =? 0) eqn:Hz; auto.
    apply Z.eqb_eq in Hz. contradiction.
  - rewrite (Hroot Hc). cbn [or_pk]. exact Hc.
Qed.

(** The translation group is the same seen from any of its members: a
    page [get_translations] returns for [self] gets, with [include_self],
    the rows [self] gets, in the same order. This needs the group not to be
    chained: the canonical page of the group has no [canonical_page] of its
    own. *)
Theorem get_translations_same_group
    (db : DB) (self p : Page.t) (only_live include_self only_live' : bool) :
  canonical_id self <> 0 ->
  In p (get_translations db self only_live include_self) ->
  (Page.pk p = canonical_id self -> Page.canonical_page_id p = None) ->
  get_translations db p only_live' true = get_translations db self only_live' true.
Proof.
  intros Hnz Hin Hroot.
  pose proof (canonical_id_of_member db self p only_live include_self Hnz Hin Hroot)
    as Hid.
  unfold canonical_id in Hid. unfold get_translations. rewrite Hid. reflexivity.
Qed.

Lemma get_translations_same_group_witness :
  get_translations Scenario.db Scenario.home false true
    = [Scenario.home; Scenario.home_fr; Scenario.home_nl] /\
  get_translations Scenario.db Scenario.home_fr false true
    = get_translations Scenario.db Scenario.home false true.
Proof.
  split; [reflexivity|].
  apply (get_translations_same_group Scenario.db Scenario.home Scenario.home_fr
           true false false).
  - discriminate.
  - simpl. left. reflexivity.
  - discriminate.
Defined.

(** Without [include_self] no returned page has the primary key of
    [self]; and [only_live] only removes rows: what is returned with it is
    returned without it, is live and is in a live language. *)
Theorem get_translations_filters
    (db : DB) (self p : Page.t) (include_self : bool) :
  (In p (get_translations db self false false) -> Page.pk p <> Page.pk self) /\
  (In p (get_translations db self true include_self) ->
   In p (get_translations db self false include_self) /\
   Page.live p = true /\ language__live db p = true).
Proof.
  split.
  - intros H. apply get_translations_In in H. destruct H as (_ & _ & _ & H & _).
    auto.
  - intros H. apply get_translations_In in H.
    destruct H as (Hp & Htr & Hc & Hs & Hl).
    destruct (Hl eq_refl) as [Hlive Hll]. repeat split; auto.
    apply get_translations_In. repeat split; auto; discriminate.
Qed.

Lemma get_translations_filters_witness :
  Page.pk Scenario.home_fr <> Page.pk Scenario.home /\
  In Scenario.home_fr (get_translations Scenario.db Scenario.home false true) /\
  Page.live Scenario.home_fr = true /\
  language__live Scenario.db Scenario.home_fr = true.
Proof.
  split.
  - apply (get_translations_filters Scenario.db Scenario.home Scenario.home_fr
             false).
    simpl. left. reflexivity.
  - apply (get_translations_filters Scenario.db Scenario.home Scenario.home_fr
             true).
    simpl. right. left. reflexivity.
Defined.

Lemma has_translations_spec db self :
  has_translations db self = true <->
  exists p, In p (pages db) /\ Page.translatable p = true /\
            Page.canonical_page_id p = Some (Page.pk self).
Proof.
  unfold has_translations, TranslatablePage_objects, Page_objects.
  split.
  - destruct (filter _ (filter _ _)) as [|p q] eqn:Hq; [discriminate|].
    intros _. exists p.
    assert (Hin : In p (p :: q)) by (left; reflexivity).
    rewrite <- Hq in Hin. rewrite !filter_In, In_order_by, fk_is_eq in Hin.
    tauto.
  - intros (p & Hp & Htr & Hc).
    destruct (exists_ _) eqn:Hex; auto.
    rewrite exists_filter_false in Hex.
    assert (Hin : In p (filter Page.translatable
              (order_by (fun a b => path_leb (Page.path a) (Page.path b))
                        (pages db)))).
    { rewrite filter_In, In_order_by. auto. }
    specialize (Hex p Hin). cbv beta in Hex.
    apply fk_is_eq in Hc. congruence.
Qed.

(** The translations [get_translations] returns for a canonical page all
    name it as their [canonical_page] and are not canonical themselves
    (primary keys are not 0). *)
Theorem translations_are_not_canonical
    (db : DB) (self p : Page.t) (only_live : bool) :
  Page.pk self <> 0 ->
  is_canonical db self = true ->
  In p (get_translations db self only_live false) ->
  Page.canonical_page_id p = Some (Page.pk self) /\
  is_canonical db p = false.
Proof.
  unfold is_canonical. intros Hnz Hcan Hin.
  apply andb_true_iff in Hcan. destruct Hcan as [Hnone _].
  apply negb_true_iff in Hnone.
  apply get_translations_In in Hin.
  destruct Hin as (_ & _ & Hc & Hs & _). specialize (Hs eq_refl).
  assert (Hid : or_pk (Page.canonical_page_id self) (Page.pk self) = Page.pk self).
  { unfold or_pk, truthy_pk in *. destruct (Page.canonical_page_id self) as [c|]; auto.
    apply negb_false_iff in Hnone. rewrite Hnone. reflexivity. }
  rewrite Hid in Hc. destruct Hc as [Hc | Hc]; [|contradiction].
  split; auto.
  rewrite Hc. unfold truthy_pk.
  apply Z.eqb_neq in Hnz. rewrite Hnz. reflexivity.
Qed.

Lemma translations_are_not_canonical_witness :
  is_canonical Scenario.db Scenario.home = true /\
  Page.canonical_page_id Scenario.home_fr = Some (Page.pk Scenario.home) /\
  is_canonical Scenario.db Scenario.home_fr = false.
Proof.
  split; [reflexivity|].
  apply (translations_are_not_canonical Scenario.db Scenario.home Scenario.home_fr
           true).
  - discriminate.
  - reflexivity.
  - simpl. left. reflexivity.
Defined.

(** [create_translation] registers the new page in
    [TranslatablePageItem] only; it does not set the [canonical_page]
    column. For a stored source without [canonical_page] the new page is
    therefore not among the pages [get_translations] returns for the
    source. *)
Theorem create_translation_not_in_get_translations
    (self : Page.t) (lang : Language.t) (copy_fields : bool)
    (parent : option Page.t) (db db' : DB) (new_page : Page.t)
    (only_live include_self : bool) :
  In self (pages db) ->
  Page.canonical_page_id self = None ->
  create_translation self lang copy_fields parent db = (Ok new_page, db') ->
  ~ In new_page (get_translations db' self only_live include_self).
Proof.
  intros Hself Hnone H Hin.
  apply create_translation_ok in H.
  destruct H as (pr & sl & _ & _ & _ & _ & Hrow).
  apply get_translations_In in Hin. destruct Hin as (_ & _ & Hc & _).
  rewrite Hnone in Hc. cbn [or_pk] in Hc.
  apply next_pk_fresh in Hself.
  destruct copy_fields.
  - destruct Hrow as (pp & ->). cbn [Page.pk Page.canonical_page_id] in Hc.
    rewrite Hnone in Hc.
    destruct Hc as [Hc | Hc]; [discriminate | lia].
  - destruct Hrow as (r & dl & _ & _ & ->). cbn [Page.pk Page.canonical_page_id] in Hc.
    destruct Hc as [Hc | Hc]; [discriminate | lia].
Qed.

Lemma create_translation_not_in_get_translations_witness :
  ~ In Scenario.home_fr_created
       (get_translations
          (snd (create_translation Scenario.home Scenario.fr true None
                  Scenario.db_fresh))
          Scenario.home false false).
Proof.
  apply (create_translation_not_in_get_translations Scenario.home Scenario.fr true
           None Scenario.db_fresh _ Scenario.home_fr_created false false).
  - simpl. right. left. reflexivity.
  - reflexivity.
  - reflexivity.
Defined.

(** ** synchronize_trees *)

(** [synchronize_trees] does nothing, and raises nothing, for a save that
    is not a creation, with tree-sync disabled, for a page that is not
    translatable or has no language, for a page whose language is not the
    default one, and for a page outside every site. *)
Theorem synchronize_trees_does_nothing
    (cfg : Settings) (instance : Page.t) (created : bool) (db : DB) :
  created = false \/
  SYNC_TREE cfg = false \/
  Page.translatable instance = false \/
  language db instance = None \/
  (exists l, language db instance = Some l /\ Language.is_default l = false) \/
  get_site db instance = None ->
  synchronize_trees cfg instance created db = (Ok tt, db).
Proof.
  intros H. unfold synchronize_trees, bindM, query, ret. cbv beta.
  destruct H as [-> | [-> | [-> | [Hl | [(l & Hl & Hd) | Hs]]]]].
  - reflexivity.
  - rewrite orb_true_r. reflexivity.
  - rewrite !orb_true_r. reflexivity.
  - rewrite Hl. destruct (Page.translatable instance);
      rewrite !orb_true_r; reflexivity.
  - rewrite Hl. destruct (Page.translatable instance);
      rewrite ?Hd; rewrite !orb_true_r; reflexivity.
  - rewrite Hs. rewrite !orb_true_r. reflexivity.
Qed.

Lemma synchronize_trees_does_nothing_witness :
  synchronize_trees Scenario.global_sync Scenario.home false Scenario.db_fresh
    = (Ok tt, Scenario.db_fresh) /\
  synchronize_trees Scenario.global_sync Scenario.home_fr true Scenario.db
    = (Ok tt, Scenario.db).
Proof.
  split.
  - apply (synchronize_trees_does_nothing Scenario.global_sync Scenario.home false
             Scenario.db_fresh).
    left. reflexivity.
  - apply (synchronize_trees_does_nothing Scenario.global_sync Scenario.home_fr true
             Scenario.db).
    do 4 right. left. exists Scenario.fr. split; reflexivity.
Defined.

(** ** synchronize_deletions *)








(** ** Request routing *)

(** The language of a request: a live language with the code the request
    carries when there is one; the default of the site when the request
    carries no code or no live language has it. A language that is not
    live is never chosen through the code of the request. *)
Theorem get_user_language_cases
    (cfg : Settings) (db : DB) (request : Request) :
  match LANGUAGE_CODE request with
  | Some c =>
      (exists l, get_user_language cfg db request = Some l /\
                 In l (languages db) /\ Language.live l = true /\
                 Language.code l = c)
      \/ ((forall l, In l (languages db) -> Language.live l = true ->
                     Language.code l <> c) /\
          get_user_language cfg db request
          = default_for_site cfg db (request_site request))
  | None =>
      get_user_language cfg db request
      = default_for_site cfg db (request_site request)
  end.
Proof.
  unfold get_user_language, Language_live, Language_objects.
  destruct (LANGUAGE_CODE request) as [c|]; [|reflexivity].
  destruct (first _) as [l|] eqn:Hfirst.
  - left. exists l. split; auto.
    apply first_filter_Some in Hfirst. destruct Hfirst as [Hin Hc].
    apply filter_In in Hin. destruct Hin as [Hin Hlive].
    apply In_order_by in Hin. apply String.eqb_eq in Hc. auto.
  - right. split; auto. intros l Hin Hlive Hc.
    assert (Hl : In l (filter Language.live
              (order_by (fun a b => Language.position a <=? Language.position b)
                        (languages db)))).
    { apply filter_In. split; auto. apply In_order_by. auto. }
    pose proof (first_filter_None _ _ Hfirst l Hl) as Hf. cbv beta in Hf.
    apply String.eqb_neq in Hf. contradiction.
Qed.

(** When [serve] redirects, it redirects to a live child of the root page
    whose registry item is in the language of the request, and that item is
    the only one of its kind. *)
Theorem serve_redirects_to_live_child
    (cfg : Settings) (db : DB) (self : Page.t) (request : Request) (k : Z) :
  serve cfg db self request = Ok (Redirect k) ->
  exists l p i,
    get_user_language cfg db request = Some l /\
    In p (get_children db self) /\ Page.live p = true /\ Page.pk p = k /\
    serve_candidates db self (Some l) = [i] /\
    In i (items db) /\ Item.page i = Some k /\ Item.language i = Language.pk l.
Proof.
  unfold serve.
  destruct (get_user_language cfg db request) as [l|] eqn:Hl.
  2:{ cbn. discriminate. }
  destruct (serve_candidates db self (Some l)) as [|i [|j q]] eqn:Hc;
    cbn [get]; try discriminate.
  destruct (Item.page i) as [k'|] eqn:Hk; [|discriminate].
  intros H; inversion H; subst k'.
  assert (Hin : In i (serve_candidates db self (Some l)))
    by (rewrite Hc; left; reflexivity).
  unfold serve_candidates, TranslatablePageItem_objects in Hin.
  apply filter_In in Hin. destruct Hin as [Hi Hf].
  rewrite Hk in Hf. apply andb_true_iff in Hf. destruct Hf as [Hex Hlang].
  apply existsb_exists in Hex. destruct Hex as (p & Hp & Hpk).
  apply filter_In in Hp. destruct Hp as [Hp Hlive].
  apply Z.eqb_eq in Hpk. apply Z.eqb_eq in Hlang.
  exists l, p, i. repeat split; auto.
Qed.

Lemma serve_redirects_to_live_child_witness :
  exists l p i,
    get_user_language Scenario.global_sync Scenario.db
      (mkRequest (Some "fr"%string) (Some Scenario.site)) = Some l /\
    In p (get_children Scenario.db Scenario.site_root) /\
    Page.live p = true /\ Page.pk p = 3 /\
    serve_candidates Scenario.db Scenario.site_root (Some l) = [i] /\
    In i (items Scenario.db) /\ Item.page i = Some 3 /\
    Item.language i = Language.pk l.
Proof.
  apply (serve_redirects_to_live_child Scenario.global_sync Scenario.db
           Scenario.site_root (mkRequest (Some "fr"%string) (Some Scenario.site)) 3).
  reflexivity.
Defined.

(** With two live children of the root registered in the language of the
    request, [serve] does not choose: [.get()] raises
    [MultipleObjectsReturned], which the handler does not catch. *)
Theorem serve_ambiguous
    (cfg : Settings) (db : DB) (self : Page.t) (request : Request) :
  (2 <= List.length
          (serve_candidates db self (get_user_language cfg db request)))%nat ->
  serve cfg db self request = Err (MultipleObjectsReturned MTranslatablePageItem).
Proof.
  unfold serve.
  destruct (serve_candidates db self (get_user_language cfg db request))
    as [|i [|j q]]; cbn [List.length get]; intros H; try lia.
  reflexivity.
Qed.

Lemma serve_ambiguous_witness :
  serve Scenario.global_sync Cases.db_two_french Scenario.site_root
        (mkRequest (Some "fr"%string) (Some Scenario.site))
  = Err (MultipleObjectsReturned MTranslatablePageItem).
Proof.
  apply (serve_ambiguous Scenario.global_sync Cases.db_two_french
           Scenario.site_root (mkRequest (Some "fr"%string) (Some Scenario.site))).
  vm_compute. lia.
Defined.

(** ** Admin forms *)

(** The language form. Validation refuses exactly the forms that remove
    [is_default] from the default language. For a form that validates,
    [save] calls [change_default_language] exactly when a language that was
    not the default is saved as the default in global mode; a form that
    leaves the flag as it was never calls it. *)
Theorem language_form_default_switch
    (cfg : Settings) (initial : option bool) (is_default : bool) :
  match clean_is_default initial is_default with
  | ValidationError _ => initial = Some true /\ is_default = false
  | Valid v =>
      v = is_default /\
      (initial = Some true -> v = true) /\
      (save_changes_default cfg initial v = true <->
       v = true /\ initial <> Some true /\ LANGUAGES_PER_SITE cfg = false)
  end.
Proof.
  unfold clean_is_default, save_changes_default, initial_truthy, initial_is.
  destruct initial as [[|]|], is_default, (LANGUAGES_PER_SITE cfg); cbn;
    repeat split; try congruence; try tauto;
    try (intros (? & ? & ?); congruence);
    try (intros ?; repeat split; congruence).
Qed.

(** [clean_other_languages] returns the other languages unchanged when the
    default language is not one of them, or when the default language did
    not validate; it refuses the form exactly when the default language is
    among them. *)
Theorem clean_other_languages_excludes_default (data : SiteLanguagesData) :
  match clean_other_languages data with
  | Valid others =>
      others = cleaned_other_languages data /\
      forall d, cleaned_default_language data = Some d -> ~ In d others
  | ValidationError _ =>
      exists d, cleaned_default_language data = Some d /\
                In d (cleaned_other_languages data)
  end.
Proof.
  unfold clean_other_languages.
  destruct (cleaned_default_language data) as [d|].
  - destruct (existsb (Z.eqb d) (cleaned_other_languages data)) eqn:Hex.
    + apply existsb_exists in Hex. destruct Hex as (x & Hx & Hd).
      apply Z.eqb_eq in Hd. subst x. exists d. auto.
    + split; auto. intros d' Hd' Hin. inversion Hd'; subst d'.
      assert (Hex' : existsb (Z.eqb d) (cleaned_other_languages data) = true).
      { apply existsb_exists. exists d. split; auto. apply Z.eqb_refl. }
      congruence.
  - split; auto. discriminate.
Qed.

(** ** create_new_language_tree *)

Lemma grew_refl lang db : grew_by_translations lang db db.
Proof.
  exists [], []. rewrite !app_nil_r. repeat split; auto.
Qed.

Lemma grew_trans lang a b c :
  grew_by_translations lang a b -> grew_by_translations lang b c ->
  grew_by_translations lang a c.
Proof.
  intros (i1 & p1 & Hi1 & Hp1 & Hl1 & Hf1 & Hg1)
         (i2 & p2 & Hi2 & Hp2 & Hl2 & Hf2 & Hg2).
  exists (i1 ++ i2), (p1 ++ p2).
  rewrite Hi2, Hi1, Hp2, Hp1, Hl2, Hl1, !app_assoc.
  repeat split; auto; apply Forall_app; auto.
Qed.

Lemma translate_descendant_grows instance child db r db' :
  translate_descendant instance child db = (r, db') ->
  grew_by_translations instance db db'.
Proof.
  unfold translate_descendant, bindM, ret, raise.
  destruct (Page.translatable child).
  - destruct (create_translation child instance true None db) as [rc dbc] eqn:Hc.
    apply create_translation_inv in Hc.
    destruct Hc as [(_ & -> & ->) | [(_ & [-> | ->] & ->)
                   | (_ & p & sl & -> & _ & _ & _ & Hlive & _ & ->)]];
      intros H; inversion H; subst; try apply grew_refl.
    exists [Item.mk (Some (Page.pk p)) (Some (Page.pk child)) (Language.pk instance)],
           [p].
    repeat split; auto.
    constructor; [|constructor]. split; [reflexivity | discriminate].
  - intros H; inversion H; subst. apply grew_refl.
Qed.

Lemma translate_site_grows instance site db r db' :
  translate_site instance site db = (r, db') ->
  grew_by_translations instance db db'.
Proof.
  unfold translate_site, bindM, query, query_or_raise, raise. cbv beta.
  destruct (canonical_home_page db site) as [[home|]|e];
    try (intros H; inversion H; subst; apply grew_refl).
  apply for_each_rel.
  - apply grew_refl.
  - apply grew_trans.
  - intros child d r1 d' _. apply translate_descendant_grows.
Qed.

(** Creating a language. A save that is not a creation does nothing at
    all. Otherwise the groups are provisioned first; with tree-sync disabled
    or when the provisioning raises, that is all. The backfill that follows
    only adds: whatever its outcome, no page, item or language is removed or
    changed, every new registry item is a translation into the new language,
    and every new page is not live. *)
Theorem create_new_language_tree_only_adds
    (provision_group : Language.t -> M unit)
    (cfg : Settings) (instance : Language.t) (created : bool) (db : DB) :
  (created = false ->
   create_new_language_tree provision_group cfg instance created db = (Ok tt, db)) /\
  (created = true ->
   (SYNC_TREE cfg = false \/ exists e, fst (provision_group instance db) = Err e) ->
   create_new_language_tree provision_group cfg instance created db
   = provision_group instance db) /\
  (created = true ->
   grew_by_translations instance (snd (provision_group instance db))
     (snd (create_new_language_tree provision_group cfg instance created db))).
Proof.
  unfold create_new_language_tree, bindM, ret, query. cbv beta.
  split; [|split].
  - intros ->. reflexivity.
  - intros -> Hoff. cbn [negb orb].
    destruct (provision_group instance db) as [[[]|e] db1] eqn:Hp; auto.
    destruct Hoff as [-> | (e & He)];
      [reflexivity | discriminate].
  - intros ->. cbn [negb orb].
    destruct (provision_group instance db) as [[[]|e] db1] eqn:Hp; cbn [snd];
      [|apply grew_refl].
    destruct (SYNC_TREE cfg); cbn [negb]; [|apply grew_refl].
    destruct (for_each (translate_site instance) (sites db1) db1) as [r db'] eqn:H.
    cbn [snd]. revert H. apply for_each_rel.
    + apply grew_refl.
    + apply grew_trans.
    + intros site d r1 d' _. apply translate_site_grows.
Qed.

Lemma create_new_language_tree_only_adds_witness :
  create_new_language_tree Cases.no_groups Scenario.global_sync Scenario.de false
    Scenario.db_fresh = (Ok tt, Scenario.db_fresh) /\
  create_new_language_tree Cases.no_groups Scenario.global_no_sync Scenario.de true
    Scenario.db_fresh = (Ok tt, Scenario.db_fresh) /\
  create_new_language_tree Cases.no_groups Scenario.global_sync Scenario.de true
    Scenario.db_fresh
    = (Ok tt,
       mkDB (languages Scenario.db_fresh)
            (pages Scenario.db_fresh
             ++ [Page.mk 3 [1; 2]%nat true "home" "home-de" false "body" None 1])
            (items Scenario.db_fresh ++ [Item.mk (Some 3) (Some 2) 4])
            (sites Scenario.db_fresh) [] []) /\
  grew_by_translations Scenario.de
    (snd (Cases.no_groups Scenario.de Scenario.db_fresh))
    (snd (create_new_language_tree Cases.no_groups Scenario.global_sync Scenario.de
            true Scenario.db_fresh)).
Proof.
  split.
  { exact (proj1 (create_new_language_tree_only_adds Cases.no_groups
                    Scenario.global_sync Scenario.de false Scenario.db_fresh)
                 eq_refl). }
  split.
  { exact (proj1 (proj2 (create_new_language_tree_only_adds Cases.no_groups
                           Scenario.global_no_sync Scenario.de true
                           Scenario.db_fresh))
                 eq_refl (or_introl eq_refl)). }
  split; [reflexivity|].
  exact (proj2 (proj2 (create_new_language_tree_only_adds Cases.no_groups
                         Scenario.global_sync Scenario.de true Scenario.db_fresh))
               eq_refl).
Defined.

(** A site whose root has no child in the default language stops the
    backfill: [canonical_home_page] is [None] and asking it for its
    descendants raises [AttributeError]. For the first site this happens
    right after the provisioning, with nothing translated. *)
Theorem create_new_language_tree_needs_home
    (provision_group : Language.t -> M unit)
    (cfg : Settings) (instance : Language.t) (db db1 : DB)
    (site : Site.t) (rest : list Site.t) :
  SYNC_TREE cfg = true ->
  provision_group instance db = (Ok tt, db1) ->
  sites db1 = site :: rest ->
  canonical_home_page db1 site = Ok None ->
  create_new_language_tree provision_group cfg instance true db
  = (Err AttributeError, db1).
Proof.
  intros Hsync Hp Hsites Hhome.
  unfold create_new_language_tree, bindM, ret, query. cbv beta.
  rewrite Hp, Hsync. cbn [negb orb]. cbv beta. rewrite Hsites.
  cbn [for_each]. unfold bindM at 1.
  unfold translate_site, bindM, query_or_raise, raise.
  rewrite Hhome. reflexivity.
Qed.

Lemma create_new_language_tree_needs_home_witness :
  create_new_language_tree Cases.no_groups Scenario.global_sync Scenario.fr true
    Cases.db_no_home
  = (Err AttributeError, Cases.db_no_home).
Proof.
  apply (create_new_language_tree_needs_home Cases.no_groups Scenario.global_sync
           Scenario.fr Cases.db_no_home Cases.db_no_home Scenario.site []);
    reflexivity.
Defined.

(** ** synchronize_trees and the registry *)



